(** * Azure Gallery storefront: cart and checkout controller

    Shallow embedding of [frontend/src/App.js].  The React component keeps its
    state in [useState] cells; every handler is embedded as a function on that
    state.  Functional updates [setCart(prevCart => ...)] become functions
    [Cart -> Cart]; the asynchronous [handleCheckout] is split at its single
    [await fetch(...)] into the part that runs on the click and the part that
    runs when the request settles.

    Numbers.  Quantities are JavaScript numbers that the interface only ever
    moves in steps of one from the literal 1, so they are integers ([Z]).
    A price is the decimal amount of the catalog record ([Q]).  The total is
    given twice: [CartOps.getCartTotal] reads the [reduce] with exact
    arithmetic, and [Binary64.getCartTotal] evaluates the same [reduce] as
    the engine does, on IEEE 754 binary64 numbers, with the rounding of every
    product and every sum. *)

From Stdlib Require Import List String Ascii Bool ZArith QArith Lia Permutation.
From Stdlib Require PrimFloat FloatOps SpecFloat.
Import ListNotations.

(* ------------------------------------------------------------------ *)
(** ** Data model *)

(** Artwork identifiers are opaque strings or numbers; the code compares them
    with [===], which never identifies a string with a number. *)
Inductive Ident : Type :=
| IdStr (s : string)
| IdNum (n : Z).

Definition strict_eq (a b : Ident) : bool :=
  match a, b with
  | IdStr s, IdStr t => String.eqb s t
  | IdNum n, IdNum m => Z.eqb n m
  | _, _ => false
  end.

(** A catalog record as served by [/api/artworks]. *)
Record Artwork : Type := mkArtwork {
  id : Ident;
  title : string;
  price : Q;
  image_url : string;
  medium : string;
  size : string;
  year_created : Z;
  description : string;
  category : string;
  availability : string
}.

(** A cart entry is the object [{ ...artwork, quantity }]: every field of the
    artwork snapshot, plus the quantity. *)
Record CartLine : Type := mkLine {
  ref : Artwork;
  quantity : Z
}.

Definition Cart : Type := list CartLine.

Definition line_id (item : CartLine) : Ident := id (ref item).
Definition line_price (item : CartLine) : Q := price (ref item).

(** [{ ...item, quantity: q }] *)
Definition with_quantity (item : CartLine) (q : Z) : CartLine :=
  {| ref := ref item; quantity := q |}.

(* ------------------------------------------------------------------ *)
(** ** Cart operations (App.js lines 51-83) *)

Module CartOps.

(** [addToCart]: the updater passed to [setCart]. *)
Definition addToCart (artwork : Artwork) (prevCart : Cart) : Cart :=
  match find (fun item => strict_eq (line_id item) (id artwork)) prevCart with
  | Some _existingItem =>
      map (fun item =>
             if strict_eq (line_id item) (id artwork)
             then with_quantity item (quantity item + 1)
             else item)
          prevCart
  | None => prevCart ++ [ {| ref := artwork; quantity := 1 |} ]
  end.

(** [removeFromCart]: [prevCart.filter(item => item.id !== artworkId)]. *)
Definition removeFromCart (artworkId : Ident) (prevCart : Cart) : Cart :=
  filter (fun item => negb (strict_eq (line_id item) artworkId)) prevCart.

(** [updateCartQuantity]: removal on [quantity === 0], otherwise the quantity
    of the matching entries is overwritten. *)
Definition updateCartQuantity (artworkId : Ident) (qty : Z) (prevCart : Cart) : Cart :=
  if (qty =? 0)%Z
  then removeFromCart artworkId prevCart
  else map (fun item =>
              if strict_eq (line_id item) artworkId
              then with_quantity item qty
              else item)
           prevCart.

(** [getCartTotal]: [cart.reduce((total, item) => total + item.price * item.quantity, 0)],
    read with exact arithmetic.  The value the engine computes is
    [Binary64.getCartTotal], below. *)
Definition getCartTotal (cart : Cart) : Q :=
  fold_left (fun total item => total + line_price item * inject_Z (quantity item))
            cart 0.

End CartOps.
Import CartOps.

(** The cart invariant of the data model: one entry per identifier, and every
    quantity at least one. *)
Definition unique_ids (c : Cart) : Prop := NoDup (map line_id c).
Definition positive_quantities (c : Cart) : Prop :=
  Forall (fun item => (1 <= quantity item)%Z) c.
Definition cart_inv (c : Cart) : Prop := unique_ids c /\ positive_quantities c.

(** Whether some entry carries the identifier. *)
Definition has_line (artworkId : Ident) (c : Cart) : Prop :=
  In artworkId (map line_id c).

(** The sum of price times quantity over the entries, written by recursion on
    the list (the reference value that [getCartTotal] is compared with). *)
Fixpoint sum_lines (c : Cart) : Q :=
  match c with
  | [] => 0
  | item :: rest => line_price item * inject_Z (quantity item) + sum_lines rest
  end.

(* ------------------------------------------------------------------ *)
(** ** The total as the engine computes it *)

Module Binary64.

Definition float : Set := PrimFloat.float.

(** The double nearest to an integer: a quantity as the engine holds it. *)
Definition of_Z (z : Z) : float :=
  FloatOps.SF2Prim
    (SpecFloat.binary_normalize FloatOps.prec FloatOps.emax z 0 false).

(** The double that parsing the decimal of a price gives.  Numerator and
    denominator convert without rounding when they are below 2^53 (every
    price of up to fifteen digits, and every double), and the division then
    rounds their quotient once, to the nearest double. *)
Definition of_decimal (q : Q) : float :=
  PrimFloat.div (of_Z (Qnum q)) (of_Z (Zpos (Qden q))).

(** [cart.reduce((total, item) => total + item.price * item.quantity, 0)] on
    doubles: each product and each sum is rounded to the nearest double. *)
Definition getCartTotal (cart : Cart) : float :=
  fold_left
    (fun total item =>
       PrimFloat.add total
         (PrimFloat.mul (of_decimal (line_price item)) (of_Z (quantity item))))
    cart PrimFloat.zero.

(** A double that is a number (neither an infinity nor NaN), and the
    rational it stands for. *)
Definition finite (f : float) : bool :=
  match FloatOps.Prim2SF f with
  | SpecFloat.S754_zero _ => true
  | SpecFloat.S754_finite _ _ _ => true
  | _ => false
  end.

Definition value (f : float) : Q :=
  match FloatOps.Prim2SF f with
  | SpecFloat.S754_finite s m e =>
      let magnitude :=
        match e with
        | Zneg p => Zpos m # (2 ^ p)
        | _ => inject_Z (Zpos m * 2 ^ e)
        end in
      if s then - magnitude else magnitude
  | _ => 0
  end.

(** The double [f] is the number [q], with nothing lost. *)
Definition exactly (f : float) (q : Q) : bool :=
  finite f && Qeq_bool (value f) q.

(** One round of the [reduce] in which nothing is rounded: the price and the
    quantity convert exactly, and the product and the sum are the exact
    ones. *)
Definition line_exact (total : float) (item : CartLine) : bool :=
  let p := of_decimal (line_price item) in
  let k := of_Z (quantity item) in
  exactly p (line_price item)
  && exactly k (inject_Z (quantity item))
  && exactly (PrimFloat.mul p k) (value p * value k)
  && exactly (PrimFloat.add total (PrimFloat.mul p k))
             (value total + value (PrimFloat.mul p k)).

Fixpoint rounds_nowhere_from (total : float) (c : Cart) : bool :=
  match c with
  | [] => true
  | item :: rest =>
      line_exact total item
      && rounds_nowhere_from
           (PrimFloat.add total
              (PrimFloat.mul (of_decimal (line_price item)) (of_Z (quantity item))))
           rest
  end.

(** No step of [getCartTotal] on this cart rounds. *)
Definition rounds_nowhere (c : Cart) : bool :=
  rounds_nowhere_from PrimFloat.zero c.

End Binary64.

(* ------------------------------------------------------------------ *)
(** ** Sample catalog records, used by the concrete checks *)

Definition sample (i : Ident) (t : string) (p : Q) : Artwork :=
  {| id := i; title := t; price := p; image_url := "";
     medium := ""; size := ""; year_created := 2024;
     description := ""; category := "abstract"; availability := "available" |}.

Definition artA : Artwork := sample (IdStr "A") "Azure I" 100.
Definition artB : Artwork := sample (IdStr "B") "Azure II" 50.

(* ------------------------------------------------------------------ *)
(** ** Component state (App.js lines 7-14) *)

Record AppState : Type := mkState {
  artworks : list Artwork;
  featuredArtworks : list Artwork;
  selectedArtwork : option Artwork;
  currentView : string;
  filterCategory : string;
  cart : Cart;
  isCartOpen : bool;
  isCheckingOut : bool
}.

(** The [useState] defaults. *)
Definition initialState : AppState :=
  {| artworks := []; featuredArtworks := []; selectedArtwork := None;
     currentView := "home"; filterCategory := "all"; cart := [];
     isCartOpen := false; isCheckingOut := false |}.

Definition setArtworks (data : list Artwork) (s : AppState) : AppState :=
  mkState data (featuredArtworks s) (selectedArtwork s) (currentView s)
          (filterCategory s) (cart s) (isCartOpen s) (isCheckingOut s).

Definition setFeaturedArtworks (data : list Artwork) (s : AppState) : AppState :=
  mkState (artworks s) data (selectedArtwork s) (currentView s)
          (filterCategory s) (cart s) (isCartOpen s) (isCheckingOut s).

Definition setSelectedArtwork (a : option Artwork) (s : AppState) : AppState :=
  mkState (artworks s) (featuredArtworks s) a (currentView s)
          (filterCategory s) (cart s) (isCartOpen s) (isCheckingOut s).

Definition setCurrentView (v : string) (s : AppState) : AppState :=
  mkState (artworks s) (featuredArtworks s) (selectedArtwork s) v
          (filterCategory s) (cart s) (isCartOpen s) (isCheckingOut s).

Definition setFilterCategory (c : string) (s : AppState) : AppState :=
  mkState (artworks s) (featuredArtworks s) (selectedArtwork s) (currentView s)
          c (cart s) (isCartOpen s) (isCheckingOut s).

(** [setCart] with a functional update. *)
Definition setCart (f : Cart -> Cart) (s : AppState) : AppState :=
  mkState (artworks s) (featuredArtworks s) (selectedArtwork s) (currentView s)
          (filterCategory s) (f (cart s)) (isCartOpen s) (isCheckingOut s).

Definition setIsCartOpen (b : bool) (s : AppState) : AppState :=
  mkState (artworks s) (featuredArtworks s) (selectedArtwork s) (currentView s)
          (filterCategory s) (cart s) b (isCheckingOut s).

Definition setIsCheckingOut (b : bool) (s : AppState) : AppState :=
  mkState (artworks s) (featuredArtworks s) (selectedArtwork s) (currentView s)
          (filterCategory s) (cart s) (isCartOpen s) b.

(* ------------------------------------------------------------------ *)
(** ** What a handler does to the outside world *)

(** Body of the session-creation request. *)
Record CheckoutItem : Type := mkItem {
  artwork_id : Ident;
  item_quantity : Z
}.

Record CheckoutData : Type := mkCheckoutData {
  items : list CheckoutItem;
  customer_email : string
}.

(** Observable actions, in the order the code performs them.  Request paths
    are relative to [API_BASE_URL]. *)
Inductive Effect : Type :=
| Alert (msg : string)
| ConsoleError (label error : string)
| Get (path : string)
| Post (path : string) (body : CheckoutData)
| Navigate (url : string).

(** Values that are returned or thrown; [bind] sequences the statements of a
    [try] block and stops at the first [throw]. *)
Inductive Result (A : Type) : Type :=
| Return (a : A)
| Throw (error : string).
Arguments Return {A} a.
Arguments Throw {A} error.

Definition bind {A B : Type} (m : Result A) (k : A -> Result B) : Result B :=
  match m with
  | Return a => k a
  | Throw e => Throw e
  end.

Declare Scope result_scope.
Delimit Scope result_scope with result.
Notation "x <- m ;; k" := (bind m (fun x => k))
  (at level 61, m at next level, right associativity) : result_scope.

(** A JavaScript value as the assignment [window.location.href = v] sees
    it: [undefined], a string, or any other value (a number, a boolean,
    [null], an object, an array), given by the string it converts to. *)
Inductive JsValue : Type :=
| JsUndefined
| JsString (s : string)
| JsOther (as_string : string).

Definition ToString (v : JsValue) : string :=
  match v with
  | JsUndefined => "undefined"
  | JsString s => s
  | JsOther s => s
  end.

(** A parsed body, as far as [data.session_url] looks into it: the document
    [null], on which reading a property throws a [TypeError], or any other
    document, with what reading [session_url] from it gives ([undefined]
    when it has no such field). *)
Inductive Json : Type :=
| JsonNull (type_error : string)
| JsonValue (session_url_field : JsValue).

Definition read_session_url (data : Json) : Result JsValue :=
  match data with
  | JsonNull type_error => Throw type_error
  | JsonValue v => Return v
  end.

(** What [fetch] hands back: a rejection (network error), or a response with
    its status and the outcome of [response.json()]. *)
Record Response : Type := mkResponse {
  status : Z;
  json : Result Json
}.

Inductive FetchOutcome : Type :=
| Rejected (error : string)
| Resolved (response : Response).

(** [response.ok]: the status is in the range 200-299. *)
Definition ok (response : Response) : bool :=
  ((200 <=? status response) && (status response <=? 299))%Z.

(* ------------------------------------------------------------------ *)
(** ** Return detection (App.js lines 16-26) *)

(** [URLSearchParams] is the browser's list of name-value pairs of the query
    string; [get] returns the first value under a name, or [null]. *)
Definition URLSearchParams : Type := list (string * string).

Fixpoint get (name : string) (params : URLSearchParams) : option string :=
  match params with
  | [] => None
  | (n, v) :: rest => if String.eqb n name then Some v else get name rest
  end.

(** [if (sessionId)]: [null] and the empty string are falsy. *)
Definition truthy (v : option string) : bool :=
  match v with
  | None => false
  | Some s => negb (String.eqb s "")
  end.

(** The marker is present when some pair of the query string is named
    [session_id], whatever its value. *)
Definition marker_present (params : URLSearchParams) : Prop :=
  exists v, In ("session_id"%string, v) params.

Definition fetchArtworks (s : AppState) : Effect :=
  Get (if String.eqb (filterCategory s) "all"
       then "/api/artworks"
       else "/api/artworks?category=" ++ filterCategory s).

Definition fetchFeaturedArtworks : Effect := Get "/api/featured-artworks".

(** The effect registered with [useEffect(..., [filterCategory])]: it runs
    after the first render and again after every change of the filter. *)
Definition mountEffect (search : URLSearchParams) (s : AppState)
  : AppState * list Effect :=
  let sessionId := get "session_id" search in
  (if truthy sessionId then setCurrentView "success" s else s,
   [fetchArtworks s; fetchFeaturedArtworks]).

(** [onClick] of the button of [SuccessPage] (lines 455-458). *)
Definition continueShopping (s : AppState) : AppState :=
  setCurrentView "home" (setCart (fun _ => []) s).

(** Two entry URLs: [?session_id=] and [?session_id=cs_test_123]. *)
Definition entry_empty_marker : URLSearchParams :=
  [("session_id"%string, ""%string)].
Definition entry_with_session : URLSearchParams :=
  [("session_id"%string, "cs_test_123"%string)].

(* ------------------------------------------------------------------ *)
(** ** View dispatch (App.js lines 523-538) *)

Inductive Page : Type :=
| HomePage | GalleryPage | ArtworkDetailPage | AboutPage | ContactPage
| SuccessPage.

Definition renderCurrentView (view : string) : Page :=
  if String.eqb view "home" then HomePage
  else if String.eqb view "gallery" then GalleryPage
  else if String.eqb view "artwork-detail" then ArtworkDetailPage
  else if String.eqb view "about" then AboutPage
  else if String.eqb view "contact" then ContactPage
  else HomePage.

(* ------------------------------------------------------------------ *)
(** ** Checkout (App.js lines 85-125) *)

Definition checkoutData (c : Cart) : CheckoutData :=
  {| items := map (fun item => {| artwork_id := line_id item;
                                  item_quantity := quantity item |}) c;
     customer_email := "customer@example.com" |}.

(** The rest of the [try] block, from the settled request to the redirect
    address. *)
Definition await_fetch (o : FetchOutcome) : Result Response :=
  match o with
  | Rejected e => Throw e
  | Resolved r => Return r
  end.

Definition session_url (o : FetchOutcome) : Result JsValue :=
  (response <- await_fetch o ;;
   if negb (ok response)
   then Throw "Failed to create checkout session"
   else
     data <- json response ;;
     read_session_url data)%result.

(** What the handler does once the request has settled: the assignment to
    [window.location.href], or the [catch] block. *)
Definition after_fetch (o : FetchOutcome) : list Effect :=
  match session_url o with
  | Return url => [Navigate (ToString url)]
  | Throw error =>
      [ConsoleError "Checkout error:" error;
       Alert "Failed to start checkout. Please try again."]
  end.

(** [handleCheckout], as one call with nothing else happening while the
    request is pending.  The [finally] block runs on either path. *)
Definition handleCheckout (o : FetchOutcome) (s : AppState)
  : AppState * list Effect :=
  if (List.length (cart s) =? 0)%nat
  then (s, [Alert "Your cart is empty!"])
  else
    let s1 := setIsCheckingOut true s in
    let request := Post "/api/checkout/create-session" (checkoutData (cart s)) in
    (setIsCheckingOut false s1, request :: after_fetch o).

(** The same handler cut at its [await fetch(...)], for the transition system
    below, where other handlers may run while the request is pending:
    [handleCheckout_click] is the part up to the [await], and
    [handleCheckout_settle] the part after it. *)
Definition handleCheckout_click (s : AppState) : AppState * list Effect :=
  if (List.length (cart s) =? 0)%nat
  then (s, [Alert "Your cart is empty!"])
  else (setIsCheckingOut true s,
        [Post "/api/checkout/create-session" (checkoutData (cart s))]).

Definition handleCheckout_settle (o : FetchOutcome) (s : AppState)
  : AppState * list Effect :=
  (setIsCheckingOut false s, after_fetch o).

(** The request has failed: network error or a status outside 200-299. *)
Definition failed (o : FetchOutcome) : Prop :=
  match o with
  | Rejected _ => True
  | Resolved r => ok r = false
  end.

Definition is_post (e : Effect) : bool :=
  match e with Post _ _ => true | _ => false end.

Definition is_navigate (e : Effect) : bool :=
  match e with Navigate _ => true | _ => false end.

(** The address last assigned to [window.location.href], if any: a later
    assignment takes the place of an earlier one. *)
Definition location_href (l : list Effect) : option string :=
  fold_left (fun href e => match e with Navigate url => Some url | _ => href end)
            l None.

(** The checkout button (lines 506-518) is rendered for a non-empty cart and
    is disabled while [isCheckingOut]. *)
Definition checkout_enabled (s : AppState) : bool :=
  negb (List.length (cart s) =? 0)%nat && negb (isCheckingOut s).

(* ------------------------------------------------------------------ *)
(** ** The page as a transition system *)

(** One page lifecycle: the query string of the entry URL, the component
    state, the session-creation requests not yet settled, and everything the
    page has done so far. *)
Record Process : Type := mkProcess {
  search : URLSearchParams;
  app : AppState;
  pending : nat;
  log : list Effect
}.

Inductive Event : Type :=
| SetView (view : string)
| OpenDetail (a : Artwork)
| SetFilter (c : string)
| ArtworksLoaded (data : list Artwork)
| FeaturedLoaded (data : list Artwork)
| AddToCart (a : Artwork)
| RemoveFromCart (artworkId : Ident)
| UpdateCartQuantity (artworkId : Ident) (qty : Z)
| ToggleCart
| CloseCart
| CheckoutClick
| CheckoutSettled (o : FetchOutcome)
| ContinueShopping.

Definition update (f : AppState -> AppState) (p : Process) : Process :=
  mkProcess (search p) (f (app p)) (pending p) (log p).

Definition perform (r : AppState * list Effect) (p : Process) : Process :=
  mkProcess (search p) (fst r) (pending p) (log p ++ snd r).

(** The first render followed by the mount effect. *)
Definition start (entry : URLSearchParams) : Process :=
  perform (mountEffect entry initialState) (mkProcess entry initialState 0 []).

Definition step (e : Event) (p : Process) : Process :=
  match e with
  | SetView v => update (setCurrentView v) p
  | OpenDetail a =>
      update (fun s => setCurrentView "artwork-detail" (setSelectedArtwork (Some a) s)) p
  | SetFilter c =>
      if String.eqb c (filterCategory (app p)) then p
      else
        let p1 := update (setFilterCategory c) p in
        perform (mountEffect (search p1) (app p1)) p1
  | ArtworksLoaded data => update (setArtworks data) p
  | FeaturedLoaded data => update (setFeaturedArtworks data) p
  | AddToCart a => update (setCart (addToCart a)) p
  | RemoveFromCart i => update (setCart (removeFromCart i)) p
  | UpdateCartQuantity i q => update (setCart (updateCartQuantity i q)) p
  | ToggleCart => update (fun s => setIsCartOpen (negb (isCartOpen s)) s) p
  | CloseCart => update (setIsCartOpen false) p
  | CheckoutClick =>
      if checkout_enabled (app p)
      then
        let p1 := perform (handleCheckout_click (app p)) p in
        mkProcess (search p1) (app p1) (S (pending p1)) (log p1)
      else p
  | CheckoutSettled o =>
      match pending p with
      | O => p
      | S n =>
          let p1 := perform (handleCheckout_settle o (app p)) p in
          mkProcess (search p1) (app p1) n (log p1)
      end
  | ContinueShopping =>
      match renderCurrentView (currentView (app p)) with
      | SuccessPage => update continueShopping p
      | _ => p
      end
  end.

Definition run (es : list Event) (p : Process) : Process :=
  fold_left (fun q e => step e q) es p.

(** Cart edits, as a caller of the three operations may issue them. *)
Inductive CartOp : Type :=
| AddItem (a : Artwork)
| RemoveItem (artworkId : Ident)
| SetQuantity (artworkId : Ident) (qty : Z).

Definition apply_op (c : Cart) (op : CartOp) : Cart :=
  match op with
  | AddItem a => addToCart a c
  | RemoveItem i => removeFromCart i c
  | SetQuantity i q => updateCartQuantity i q c
  end.

Definition apply_ops (ops : list CartOp) (c : Cart) : Cart :=
  fold_left apply_op ops c.

(* ------------------------------------------------------------------ *)
(** ** Sample request outcomes and a sample run *)

(** A 503 answer whose body is not JSON. *)
Definition service_unavailable : FetchOutcome :=
  Resolved {| status := 503; json := Throw "Unexpected token" |}.

(** A 200 answer carrying a redirect address. *)
Definition session_created : FetchOutcome :=
  Resolved {| status := 200;
              json := Return (JsonValue (JsString "https://pay.example/c/cs_test_123")) |}.

(** Plain entry URL; one artwork added; checkout clicked; session created. *)
Definition after_redirect : Process :=
  run [AddToCart artA; CheckoutClick; CheckoutSettled session_created] (start []).

(* ------------------------------------------------------------------ *)
(** ** The rest of the interface *)

(** The quantity buttons of a rendered cart entry (App.js lines 490 and 492):
    [updateCartQuantity(item.id, item.quantity - 1)] and
    [updateCartQuantity(item.id, item.quantity + 1)]. *)
Definition clickMinus (item : CartLine) (prevCart : Cart) : Cart :=
  updateCartQuantity (line_id item) (quantity item - 1) prevCart.

Definition clickPlus (item : CartLine) (prevCart : Cart) : Cart :=
  updateCartQuantity (line_id item) (quantity item + 1) prevCart.

(** The badge of the header (line 162): [Cart ({cart.length})]. *)
Definition cartBadge (c : Cart) : nat := List.length c.

(** [fetchArtworks] and [fetchFeaturedArtworks] from the settled request on
    (lines 33-38 and 43-48).  The [try] block covers [fetch] and
    [response.json()] alike, so one [Result] stands for both; the status of
    the response is not looked at. *)
Definition fetchArtworks_settle (r : Result (list Artwork)) (s : AppState)
  : AppState * list Effect :=
  match r with
  | Return data => (setArtworks data s, [])
  | Throw error => (s, [ConsoleError "Error fetching artworks:" error])
  end.

Definition fetchFeaturedArtworks_settle (r : Result (list Artwork)) (s : AppState)
  : AppState * list Effect :=
  match r with
  | Return data => (setFeaturedArtworks data s, [])
  | Throw error => (s, [ConsoleError "Error fetching featured artworks:" error])
  end.

(** Everything that can happen to the page: the events of [step], and the two
    catalog requests failing. *)
Inductive PageEvent : Type :=
| Ui (e : Event)
| ArtworksFailed (error : string)
| FeaturedFailed (error : string).

Definition page_step (e : PageEvent) (p : Process) : Process :=
  match e with
  | Ui e => step e p
  | ArtworksFailed error => perform (fetchArtworks_settle (Throw error) (app p)) p
  | FeaturedFailed error =>
      perform (fetchFeaturedArtworks_settle (Throw error) (app p)) p
  end.

Definition page_run (es : list PageEvent) (p : Process) : Process :=
  fold_left (fun q e => page_step e q) es p.

(** The artworks whose "Add to Cart" button is on screen: the featured ones
    on the home page, the listed ones in the gallery, the selected one on the
    detail page. *)
Definition can_add (s : AppState) (a : Artwork) : Prop :=
  match renderCurrentView (currentView s) with
  | HomePage => In a (featuredArtworks s)
  | GalleryPage => In a (artworks s)
  | ArtworkDetailPage => selectedArtwork s = Some a
  | _ => False
  end.

(** The artworks whose image or "View Details" button is on screen. *)
Definition can_open (s : AppState) (a : Artwork) : Prop :=
  match renderCurrentView (currentView s) with
  | HomePage => In a (featuredArtworks s)
  | GalleryPage => In a (artworks s)
  | _ => False
  end.

(** What the rendered page lets happen next.  Navigation goes to the four
    views of the header (the logo, "Explore Gallery" and "Back to Gallery"
    lead to two of them); the filter buttons are in the gallery; the cart
    sidebar offers, for each entry, its remove button and its two quantity
    buttons; catalog answers may arrive at any time. *)
Definition offered (p : Process) (e : PageEvent) : Prop :=
  let s := app p in
  match e with
  | Ui (SetView v) =>
      In v ["home"%string; "gallery"%string; "about"%string; "contact"%string]
  | Ui (OpenDetail a) => can_open s a
  | Ui (SetFilter c) =>
      renderCurrentView (currentView s) = GalleryPage
      /\ In c ["all"%string; "abstract"%string; "landscape"%string; "digital"%string]
  | Ui (ArtworksLoaded _) => True
  | Ui (FeaturedLoaded _) => True
  | Ui (AddToCart a) => can_add s a
  | Ui (RemoveFromCart i) => exists item, In item (cart s) /\ line_id item = i
  | Ui (UpdateCartQuantity i q) =>
      exists item, In item (cart s) /\ line_id item = i
                   /\ (q = quantity item - 1 \/ q = quantity item + 1)%Z
  | Ui ToggleCart => True
  | Ui CloseCart => True
  | Ui CheckoutClick => checkout_enabled s = true
  | Ui (CheckoutSettled _) => (0 < pending p)%nat
  | Ui ContinueShopping => renderCurrentView (currentView s) = SuccessPage
  | ArtworksFailed _ => True
  | FeaturedFailed _ => True
  end.

(** The states a page started on [entry] can get into. *)
Inductive reachable (entry : URLSearchParams) : Process -> Prop :=
| reach_start : reachable entry (start entry)
| reach_step (p : Process) (e : PageEvent) :
    reachable entry p -> offered p e -> reachable entry (page_step e p).

(** A request body the backend can price: at least one item, no artwork
    twice, every quantity at least one. *)
Definition well_formed_request (d : CheckoutData) : Prop :=
  items d <> []
  /\ NoDup (map artwork_id (items d))
  /\ Forall (fun it => (1 <= item_quantity it)%Z) (items d).

(** The three events that edit the cart. *)
Definition is_cart_event (e : Event) : bool :=
  match e with
  | AddToCart _ | RemoveFromCart _ | UpdateCartQuantity _ _ => true
  | _ => false
  end.


(** Artwork A as the catalog lists it after a price change. *)
Definition artA_repriced : Artwork := sample (IdStr "A") "Azure I" 120.

(** A 200 answer whose body is not JSON. *)
Definition ok_without_json : FetchOutcome :=
  Resolved {| status := 200; json := Throw "Unexpected end of JSON input" |}.

(** A 200 answer whose body is the document [{}]. *)
Definition ok_without_url : FetchOutcome :=
  Resolved {| status := 200; json := Return (JsonValue JsUndefined) |}.

(** A 200 answer whose body is the document [null]. *)
Definition ok_with_null : FetchOutcome :=
  Resolved {| status := 200;
              json := Return (JsonNull "Cannot read properties of null") |}.

(** Three prints priced 19.99, 29.99 and 149.99. *)
Definition print1 : Artwork := sample (IdStr "P1") "Print I" (1999 # 100).
Definition print2 : Artwork := sample (IdStr "P2") "Print II" (2999 # 100).
Definition print3 : Artwork := sample (IdStr "P3") "Print III" (14999 # 100).

(** A visit to a detail page: the featured list arrives and A is opened. *)
Definition detail_visit : list PageEvent :=
  [Ui (FeaturedLoaded [artA; artB]); Ui (OpenDetail artA)].

(** Back from payment, in the gallery. *)
Definition returned_in_gallery : Process :=
  step (SetView "gallery") (start entry_with_session).

(** A visit: the featured list arrives, A is added twice and B once, the
    quantity of A is taken down by one, and checkout is clicked. *)
Definition sample_visit : list PageEvent :=
  [Ui (FeaturedLoaded [artA; artB]);
   Ui (AddToCart artA); Ui (AddToCart artA); Ui (AddToCart artB);
   Ui (UpdateCartQuantity (IdStr "A") 1);
   Ui CheckoutClick].

(* ------------------------------------------------------------------ *)
(** ** Basic facts about identifiers and the list operations *)

Lemma strict_eq_spec (a b : Ident) : reflect (a = b) (strict_eq a b).
Proof.
  destruct a as [s|n], b as [t|m]; simpl; try (constructor; congruence).
  - destruct (String.eqb_spec s t); constructor; congruence.
  - destruct (Z.eqb_spec n m); constructor; congruence.
Qed.

Lemma strict_eq_refl (a : Ident) : strict_eq a a = true.
Proof. destruct (strict_eq_spec a a); congruence. Qed.

Lemma strict_eq_true (a b : Ident) : strict_eq a b = true <-> a = b.
Proof. destruct (strict_eq_spec a b); split; congruence. Qed.

Lemma strict_eq_false (a b : Ident) : strict_eq a b = false <-> a <> b.
Proof. destruct (strict_eq_spec a b); split; congruence. Qed.

Lemma line_id_with_quantity (item : CartLine) (q : Z) :
  line_id (with_quantity item q) = line_id item.
Proof. reflexivity. Qed.

(** [prevCart.find(...)] finds an entry exactly when one has the identifier. *)
Lemma find_some_iff (i : Ident) (c : Cart) :
  (exists l, find (fun item => strict_eq (line_id item) i) c = Some l) <-> has_line i c.
Proof.
  unfold has_line. induction c as [|x c IH]; simpl.
  - split; [intros [l H]; discriminate | intros []].
  - destruct (strict_eq_spec (line_id x) i) as [E|E].
    + split; [auto | eauto].
    + rewrite IH. split; [auto | intros [H|H]; [contradiction | assumption]].
Qed.

Lemma find_none_iff (i : Ident) (c : Cart) :
  find (fun item => strict_eq (line_id item) i) c = None <-> ~ has_line i c.
Proof.
  rewrite <- find_some_iff.
  destruct (find _ c) as [found|]; split; try congruence.
  - intros H. exfalso. apply H. eauto.
  - intros _ [l H]. discriminate.
Qed.

(** Overwriting quantities keeps the identifiers, position by position. *)
Lemma map_requantify_ids (f : CartLine -> Z) (i : Ident) (c : Cart) :
  map line_id
      (map (fun item => if strict_eq (line_id item) i
                        then with_quantity item (f item) else item) c)
  = map line_id c.
Proof.
  rewrite map_map. apply map_ext. intros item.
  destruct (strict_eq (line_id item) i); reflexivity.
Qed.

Lemma removeFromCart_ids_sub (i : Ident) (c : Cart) (j : Ident) :
  In j (map line_id (removeFromCart i c)) -> In j (map line_id c).
Proof.
  unfold removeFromCart. rewrite !in_map_iff.
  intros [l [E H]]. apply filter_In in H. exists l. tauto.
Qed.

Lemma removeFromCart_unique (i : Ident) (c : Cart) :
  unique_ids c -> unique_ids (removeFromCart i c).
Proof.
  unfold unique_ids. induction c as [|x c IH]; simpl; intros H.
  - constructor.
  - inversion H as [|? ? Hx Hc]; subst.
    destruct (strict_eq (line_id x) i); simpl; auto.
    constructor; auto. intros Hin. apply Hx. eapply removeFromCart_ids_sub; eauto.
Qed.

Lemma removeFromCart_positive (i : Ident) (c : Cart) :
  positive_quantities c -> positive_quantities (removeFromCart i c).
Proof.
  unfold positive_quantities, removeFromCart. rewrite !Forall_forall.
  intros H l Hl. apply filter_In in Hl. apply H. tauto.
Qed.

Lemma removeFromCart_absent (i : Ident) (c : Cart) :
  ~ has_line i c -> removeFromCart i c = c.
Proof.
  unfold has_line, removeFromCart. induction c as [|x c IH]; simpl; intros H.
  - reflexivity.
  - destruct (strict_eq_spec (line_id x) i) as [E|E]; simpl.
    + exfalso. apply H. auto.
    + f_equal. apply IH. intros Hin. apply H. auto.
Qed.

(* ------------------------------------------------------------------ *)
(** ** Adding an artwork *)

Lemma addToCart_absent (a : Artwork) (c : Cart) :
  ~ has_line (id a) c -> addToCart a c = c ++ [ {| ref := a; quantity := 1 |} ].
Proof.
  intros H. apply find_none_iff in H. unfold addToCart. rewrite H. reflexivity.
Qed.

Lemma addToCart_present (a : Artwork) (c : Cart) :
  has_line (id a) c ->
  addToCart a c =
  map (fun item => if strict_eq (line_id item) (id a)
                   then with_quantity item (quantity item + 1) else item) c.
Proof.
  intros H. apply find_some_iff in H. destruct H as [l H].
  unfold addToCart. rewrite H. reflexivity.
Qed.

Lemma has_line_dec (i : Ident) (c : Cart) : {has_line i c} + {~ has_line i c}.
Proof.
  unfold has_line. apply in_dec.
  intros a b. destruct (strict_eq_spec a b); [left | right]; assumption.
Qed.

(** With a single entry under the identifier, exactly that entry is
    incremented and everything around it stays as it is. *)
Lemma addToCart_single (a : Artwork) (before after : Cart) (l : CartLine) :
  line_id l = id a ->
  ~ has_line (id a) before ->
  ~ has_line (id a) after ->
  addToCart a (before ++ l :: after)
  = before ++ with_quantity l (quantity l + 1) :: after.
Proof.
  intros El Hb Ha.
  assert (Hmap : forall c, ~ has_line (id a) c ->
            map (fun item => if strict_eq (line_id item) (id a)
                             then with_quantity item (quantity item + 1)
                             else item) c = c).
  { induction c as [|x c IH]; simpl; intros H; [reflexivity|].
    unfold has_line in H. simpl in H.
    destruct (strict_eq_spec (line_id x) (id a)) as [E|E].
    - exfalso. apply H. auto.
    - f_equal. apply IH. intros Hin. apply H. auto. }
  rewrite addToCart_present.
  - rewrite map_app. simpl. rewrite (Hmap before Hb), (Hmap after Ha).
    rewrite El, strict_eq_refl. reflexivity.
  - unfold has_line. rewrite map_app. apply in_or_app. right. left. exact El.
Qed.

(** C6. [addToCart(artwork)]: when no entry has the artwork's identifier, a
    new entry with quantity 1 is appended at the end; when one has it, the
    cart keeps its length and, position by position, the entries with that
    identifier have their quantity incremented by 1 and the others are
    untouched.  Adding the same artwork twice to the empty cart gives exactly
    one entry, with quantity 2. *)
Theorem addToCart_merges (a : Artwork) (c : Cart) :
  (~ has_line (id a) c ->
     addToCart a c = c ++ [ {| ref := a; quantity := 1 |} ])
  /\ (has_line (id a) c ->
        List.length (addToCart a c) = List.length c
        /\ forall n item, nth_error c n = Some item ->
             nth_error (addToCart a c) n
             = Some (if strict_eq (line_id item) (id a)
                     then {| ref := ref item; quantity := quantity item + 1 |}
                     else item))
  /\ addToCart a (addToCart a []) = [ {| ref := a; quantity := 2 |} ].
Proof.
  split; [apply addToCart_absent|]. split.
  - intros H. rewrite addToCart_present by exact H. split.
    + apply length_map.
    + intros n item Hn. rewrite nth_error_map, Hn. reflexivity.
  - unfold addToCart at 2. simpl. unfold addToCart. simpl.
    unfold line_id. simpl. rewrite strict_eq_refl. reflexivity.
Qed.

Lemma addToCart_merges_witness :
  addToCart artB [mkLine artA 1] = [mkLine artA 1; mkLine artB 1]
  /\ nth_error (addToCart artA [mkLine artA 1; mkLine artB 3]) 0
     = Some (mkLine artA 2)
  /\ nth_error (addToCart artA [mkLine artA 1; mkLine artB 3]) 1
     = Some (mkLine artB 3).
Proof.
  split; [|split].
  - apply (proj1 (addToCart_merges artB [mkLine artA 1])).
    unfold has_line; simpl. intros [H|[]]. discriminate H.
  - refine (proj2 (proj1 (proj2 (addToCart_merges artA [mkLine artA 1; mkLine artB 3])) _)
                  0%nat (mkLine artA 1) eq_refl).
    unfold has_line; simpl. left. reflexivity.
  - refine (proj2 (proj1 (proj2 (addToCart_merges artA [mkLine artA 1; mkLine artB 3])) _)
                  1%nat (mkLine artB 3) eq_refl).
    unfold has_line; simpl. left. reflexivity.
Defined.

(* ------------------------------------------------------------------ *)
(** ** Removing an artwork, and quantity zero *)

(** C7. [updateCartQuantity(id, 0)] gives the same cart as
    [removeFromCart(id)], and [removeFromCart(id)] leaves a cart without an
    entry under [id] unchanged. *)
Theorem setQuantity_zero_is_remove (i : Ident) (c : Cart) :
  updateCartQuantity i 0 c = removeFromCart i c
  /\ (~ has_line i c -> removeFromCart i c = c).
Proof.
  split.
  - reflexivity.
  - apply removeFromCart_absent.
Qed.

Lemma setQuantity_zero_is_remove_witness :
  updateCartQuantity (IdStr "B") 0 [mkLine artA 2] = removeFromCart (IdStr "B") [mkLine artA 2]
  /\ removeFromCart (IdStr "B") [mkLine artA 2] = [mkLine artA 2].
Proof.
  split.
  - apply (proj1 (setQuantity_zero_is_remove (IdStr "B") [mkLine artA 2])).
  - apply (proj2 (setQuantity_zero_is_remove (IdStr "B") [mkLine artA 2])).
    unfold has_line; simpl. intros [H|[]]. discriminate H.
Defined.

(* ------------------------------------------------------------------ *)
(** ** The cart invariant *)

Lemma addToCart_inv (a : Artwork) (c : Cart) : cart_inv c -> cart_inv (addToCart a c).
Proof.
  intros [Hu Hp]. destruct (has_line_dec (id a) c) as [H|H].
  - rewrite addToCart_present by exact H. split.
    + unfold unique_ids. rewrite map_requantify_ids with (f := fun item => (quantity item + 1)%Z).
      exact Hu.
    + unfold positive_quantities in *. rewrite Forall_forall in *.
      intros l Hl. apply in_map_iff in Hl. destruct Hl as [x [E Hx]].
      specialize (Hp x Hx). subst l.
      destruct (strict_eq (line_id x) (id a)); simpl; lia.
  - rewrite addToCart_absent by exact H. split.
    + unfold unique_ids in *. rewrite map_app. simpl.
      apply NoDup_app_remove_l with (l := []). simpl.
      apply Permutation_NoDup with (l := id a :: map line_id c).
      * apply Permutation_cons_append.
      * constructor; assumption.
    + unfold positive_quantities in *. apply Forall_app. split; [assumption|].
      constructor; [simpl; lia | constructor].
Qed.

Lemma removeFromCart_inv (i : Ident) (c : Cart) : cart_inv c -> cart_inv (removeFromCart i c).
Proof.
  intros [Hu Hp]. split.
  - apply removeFromCart_unique; assumption.
  - apply removeFromCart_positive; assumption.
Qed.

Lemma updateCartQuantity_nonzero (i : Ident) (q : Z) (c : Cart) :
  q <> 0%Z ->
  updateCartQuantity i q c
  = map (fun item => if strict_eq (line_id item) i then with_quantity item q else item) c.
Proof.
  intros H. unfold updateCartQuantity.
  destruct (Z.eqb_spec q 0); [contradiction | reflexivity].
Qed.

Lemma updateCartQuantity_inv (i : Ident) (q : Z) (c : Cart) :
  (0 <= q)%Z -> cart_inv c -> cart_inv (updateCartQuantity i q c).
Proof.
  intros Hq Hc. destruct (Z.eq_dec q 0) as [E|E].
  - subst q. apply removeFromCart_inv. exact Hc.
  - destruct Hc as [Hu Hp]. rewrite updateCartQuantity_nonzero by exact E. split.
    + unfold unique_ids. rewrite map_requantify_ids with (f := fun _ => q). exact Hu.
    + unfold positive_quantities in *. rewrite Forall_forall in *.
      intros l Hl. apply in_map_iff in Hl. destruct Hl as [x [Ex Hx]].
      specialize (Hp x Hx). subst l.
      destruct (strict_eq (line_id x) i); simpl; lia.
Qed.

(** C1, as the code has it.  From a cart with one entry per identifier and
    every quantity at least 1, [addToCart] and [removeFromCart] give such a
    cart again, and so does [updateCartQuantity] for every quantity that is
    not negative. *)
Theorem cart_invariant_preserved (c : Cart) :
  cart_inv c ->
  (forall a, cart_inv (addToCart a c))
  /\ (forall i, cart_inv (removeFromCart i c))
  /\ (forall i q, (0 <= q)%Z -> cart_inv (updateCartQuantity i q c)).
Proof.
  intros Hc. split; [|split].
  - intros a. apply addToCart_inv. exact Hc.
  - intros i. apply removeFromCart_inv. exact Hc.
  - intros i q Hq. apply updateCartQuantity_inv; assumption.
Qed.

Lemma sample_cart_inv : cart_inv [mkLine artA 2; mkLine artB 1].
Proof.
  split.
  - unfold unique_ids. simpl.
    constructor; [intros [H|[]]; discriminate H|].
    constructor; [intros []|constructor].
  - unfold positive_quantities. repeat constructor; simpl; lia.
Defined.

Lemma cart_invariant_preserved_witness :
  cart_inv (addToCart artA [mkLine artA 2; mkLine artB 1])
  /\ cart_inv (removeFromCart (IdStr "A") [mkLine artA 2; mkLine artB 1])
  /\ cart_inv (updateCartQuantity (IdStr "B") 4 [mkLine artA 2; mkLine artB 1]).
Proof.
  pose proof (cart_invariant_preserved _ sample_cart_inv) as [Ha [Hr Hu]].
  split; [apply Ha | split; [apply Hr | apply Hu; lia]].
Defined.

(** C1 as stated fails for [updateCartQuantity]: a negative quantity is
    written into the entry, which then has a quantity below 1. *)
Lemma cart_invariant_broken_by_negative :
  cart_inv [mkLine artA 1]
  /\ ~ cart_inv (updateCartQuantity (IdStr "A") (-1) [mkLine artA 1]).
Proof.
  split.
  - split.
    + unfold unique_ids. simpl. constructor; [intros []|constructor].
    + unfold positive_quantities. repeat constructor; simpl; lia.
  - intros [_ Hp]. unfold positive_quantities in Hp. simpl in Hp.
    inversion Hp as [|? ? Hq _]. simpl in Hq. lia.
Qed.

(* ------------------------------------------------------------------ *)
(** ** Negative quantities *)

(** C2 as stated fails: the negative quantity is stored. *)
Lemma negative_quantity_is_stored :
  (-1 < 0)%Z
  /\ updateCartQuantity (IdStr "A") (-1) [mkLine artA 1] = [mkLine artA (-1)]
  /\ updateCartQuantity (IdStr "A") (-1) [mkLine artA 1] <> [mkLine artA 1].
Proof.
  split; [lia|]. split; [reflexivity|].
  intros H. discriminate H.
Qed.

(** C2, as the code has it.  For a negative quantity [q],
    [updateCartQuantity(id, q)] removes no entry and keeps the order and the
    identifiers, and overwrites with [q] the quantity of every entry under
    [id], leaving the others untouched; the cart comes back unchanged exactly
    when no entry under [id] had another quantity than [q] (in particular
    when there is no entry under [id]). *)
Theorem negative_quantity_overwrites (i : Ident) (q : Z) (c : Cart) :
  (q < 0)%Z ->
  map line_id (updateCartQuantity i q c) = map line_id c
  /\ (forall n item, nth_error c n = Some item ->
        nth_error (updateCartQuantity i q c) n
        = Some (if strict_eq (line_id item) i
                then {| ref := ref item; quantity := q |}
                else item))
  /\ (updateCartQuantity i q c = c
      <-> forall item, In item c -> line_id item = i -> quantity item = q).
Proof.
  intros Hq. rewrite updateCartQuantity_nonzero by lia. split; [|split].
  - apply map_requantify_ids with (f := fun _ => q).
  - intros n item Hn. rewrite nth_error_map, Hn. reflexivity.
  - induction c as [|x c IH]; simpl.
    + split; [intros _ item [] | reflexivity].
    + split.
      * intros H. injection H as Hx Hc. intros item [E|Hin] Hid.
        -- subst item. rewrite Hid, strict_eq_refl in Hx.
           rewrite <- Hx. reflexivity.
        -- apply (proj1 IH Hc item Hin Hid).
      * intros H. f_equal.
        -- destruct (strict_eq_spec (line_id x) i) as [E|E]; [|reflexivity].
           destruct x as [r qx]. unfold with_quantity. simpl.
           f_equal. symmetry. apply (H (mkLine r qx)); [left; reflexivity | exact E].
        -- apply IH. intros item Hin. apply H. right. exact Hin.
Qed.

Lemma negative_quantity_overwrites_witness :
  nth_error (updateCartQuantity (IdStr "A") (-3) [mkLine artA 2; mkLine artB 1]) 0
  = Some (mkLine artA (-3))
  /\ map line_id (updateCartQuantity (IdStr "A") (-3) [mkLine artA 2; mkLine artB 1])
     = [IdStr "A"; IdStr "B"].
Proof.
  assert (Hq : (-3 < 0)%Z) by lia.
  pose proof (negative_quantity_overwrites (IdStr "A") (-3) [mkLine artA 2; mkLine artB 1] Hq)
    as [Hids [Hnth _]].
  split.
  - exact (Hnth 0%nat (mkLine artA 2) eq_refl).
  - exact Hids.
Defined.

(* ------------------------------------------------------------------ *)
(** ** The total *)



Lemma sum_lines_perm (c c' : Cart) : Permutation c c' -> sum_lines c == sum_lines c'.
Proof.
  induction 1 as [|x l l' _ IH|x y l|l l' l'' _ IH1 _ IH2]; simpl.
  - reflexivity.
  - rewrite IH. reflexivity.
  - ring.
  - rewrite IH1. exact IH2.
Qed.

Lemma exactly_spec (f : Binary64.float) (q : Q) :
  Binary64.exactly f q = true -> Binary64.value f == q.
Proof.
  unfold Binary64.exactly. intros H. apply andb_true_iff in H.
  apply Qeq_bool_iff. exact (proj2 H).
Qed.

(** A round of the [reduce] in which nothing rounds adds price times
    quantity to the value of the running total. *)
Lemma line_exact_value (total : Binary64.float) (item : CartLine) :
  Binary64.line_exact total item = true ->
  Binary64.value
    (PrimFloat.add total
       (PrimFloat.mul (Binary64.of_decimal (line_price item))
                      (Binary64.of_Z (quantity item))))
  == Binary64.value total + line_price item * inject_Z (quantity item).
Proof.
  unfold Binary64.line_exact. cbv zeta. intros H.
  apply andb_true_iff in H. destruct H as [H Hsum].
  apply andb_true_iff in H. destruct H as [H Hprod].
  apply andb_true_iff in H. destruct H as [Hp Hk].
  apply exactly_spec in Hsum, Hprod, Hp, Hk.
  rewrite Hsum, Hprod, Hp, Hk. reflexivity.
Qed.

Lemma binary64_total_from (c : Cart) (total : Binary64.float) :
  Binary64.rounds_nowhere_from total c = true ->
  Binary64.value
    (fold_left
       (fun total item =>
          PrimFloat.add total
            (PrimFloat.mul (Binary64.of_decimal (line_price item))
                           (Binary64.of_Z (quantity item))))
       c total)
  == Binary64.value total + sum_lines c.
Proof.
  revert total. induction c as [|x c IH]; intros total H.
  - simpl. ring.
  - cbn [Binary64.rounds_nowhere_from] in H. apply andb_true_iff in H.
    destruct H as [Hx Hc]. cbn [fold_left sum_lines].
    rewrite (IH _ Hc), (line_exact_value _ _ Hx). ring.
Qed.

(** Where nothing rounds, the engine's total is the exact sum. *)
Lemma binary64_total_exact (c : Cart) :
  Binary64.rounds_nowhere c = true ->
  Binary64.value (Binary64.getCartTotal c) == sum_lines c.
Proof.
  intros H. unfold Binary64.getCartTotal.
  rewrite (binary64_total_from c PrimFloat.zero H).
  change (Binary64.value PrimFloat.zero) with 0. ring.
Qed.

(** C8 as stated fails: the same three entries, added in the two opposite
    orders, have different totals (199.97 and 199.97000000000003). *)
Lemma total_depends_on_order :
  let c := apply_ops [AddItem print1; AddItem print2; AddItem print3] [] in
  let c' := apply_ops [AddItem print3; AddItem print2; AddItem print1] [] in
  Permutation c c'
  /\ PrimFloat.eqb (Binary64.getCartTotal c) (Binary64.getCartTotal c') = false
  /\ Binary64.getCartTotal c <> Binary64.getCartTotal c'.
Proof.
  cbv zeta.
  assert (Hne : PrimFloat.eqb
                  (Binary64.getCartTotal
                     (apply_ops [AddItem print1; AddItem print2; AddItem print3] []))
                  (Binary64.getCartTotal
                     (apply_ops [AddItem print3; AddItem print2; AddItem print1] []))
                = false) by (vm_compute; reflexivity).
  split; [|split].
  - change (apply_ops [AddItem print3; AddItem print2; AddItem print1] [])
      with (rev (apply_ops [AddItem print1; AddItem print2; AddItem print3] [])).
    apply Permutation_rev.
  - exact Hne.
  - intros H. rewrite H in Hne. vm_compute in Hne. discriminate Hne.
Qed.

(** C8, as the code has it.  For the cart reached from the empty cart by any
    sequence of [addToCart], [removeFromCart] and [updateCartQuantity]:
    whenever no conversion, product or partial sum of the computation of
    [getCartTotal] rounds, the total is the sum over the entries of price
    times quantity, and every rearrangement of the entries in which nothing
    rounds either has the same total. *)
Theorem total_is_sum_where_nothing_rounds (ops : list CartOp) (c' : Cart) :
  Permutation (apply_ops ops []) c' ->
  Binary64.rounds_nowhere (apply_ops ops []) = true ->
  Binary64.value (Binary64.getCartTotal (apply_ops ops []))
  == sum_lines (apply_ops ops [])
  /\ (Binary64.rounds_nowhere c' = true ->
        Binary64.value (Binary64.getCartTotal c')
        == Binary64.value (Binary64.getCartTotal (apply_ops ops []))).
Proof.
  intros H Hc. split.
  - apply binary64_total_exact. exact Hc.
  - intros Hc'. rewrite !binary64_total_exact by assumption.
    symmetry. apply sum_lines_perm. exact H.
Qed.

Lemma total_is_sum_where_nothing_rounds_witness :
  Binary64.value
    (Binary64.getCartTotal (apply_ops [AddItem artA; AddItem artA; AddItem artB] []))
  == sum_lines (apply_ops [AddItem artA; AddItem artA; AddItem artB] [])
  /\ Binary64.value (Binary64.getCartTotal [mkLine artB 1; mkLine artA 2])
     == Binary64.value
          (Binary64.getCartTotal
             (apply_ops [AddItem artA; AddItem artA; AddItem artB] [])).
Proof.
  assert (Hperm : Permutation
                    (apply_ops [AddItem artA; AddItem artA; AddItem artB] [])
                    [mkLine artB 1; mkLine artA 2])
    by (vm_compute; apply perm_swap).
  assert (Hc : Binary64.rounds_nowhere
                 (apply_ops [AddItem artA; AddItem artA; AddItem artB] []) = true)
    by (vm_compute; reflexivity).
  assert (Hc' : Binary64.rounds_nowhere [mkLine artB 1; mkLine artA 2] = true)
    by (vm_compute; reflexivity).
  pose proof (total_is_sum_where_nothing_rounds
                [AddItem artA; AddItem artA; AddItem artB]
                [mkLine artB 1; mkLine artA 2] Hperm Hc)
    as [Hsum Hsame].
  split; [exact Hsum | exact (Hsame Hc')].
Defined.

(** The entries of the failing pair do round: 19.99 is not a double. *)
Example prints_round :
  Binary64.rounds_nowhere
    (apply_ops [AddItem print1; AddItem print2; AddItem print3] []) = false.
Proof. vm_compute. reflexivity. Qed.

(** The walk-through of the testable properties: A at 100.00, B at 50.00. *)
Example worked_example :
  let c1 := apply_ops [AddItem artA] [] in
  let c2 := apply_ops [AddItem artA] c1 in
  let c3 := apply_ops [AddItem artB] c2 in
  let c4 := apply_ops [SetQuantity (IdStr "A") 1] c3 in
  let c5 := apply_ops [RemoveItem (IdStr "B")] c4 in
  (getCartTotal c1 == 100 /\ List.length c1 = 1%nat)
  /\ (getCartTotal c2 == 200 /\ c2 = [mkLine artA 2])
  /\ (getCartTotal c3 == 250 /\ List.length c3 = 2%nat)
  /\ getCartTotal c4 == 150
  /\ (getCartTotal c5 == 100 /\ List.length c5 = 1%nat).
Proof. vm_compute. repeat split. Qed.

(** The same walk-through as the engine computes it. *)
Example worked_example_binary64 :
  let c1 := apply_ops [AddItem artA] [] in
  let c2 := apply_ops [AddItem artA] c1 in
  let c3 := apply_ops [AddItem artB] c2 in
  let c4 := apply_ops [SetQuantity (IdStr "A") 1] c3 in
  let c5 := apply_ops [RemoveItem (IdStr "B")] c4 in
  Binary64.getCartTotal c1 = Binary64.of_Z 100
  /\ Binary64.getCartTotal c2 = Binary64.of_Z 200
  /\ Binary64.getCartTotal c3 = Binary64.of_Z 250
  /\ Binary64.getCartTotal c4 = Binary64.of_Z 150
  /\ Binary64.getCartTotal c5 = Binary64.of_Z 100.
Proof. vm_compute. repeat split. Qed.

(* ------------------------------------------------------------------ *)
(** ** Return from the payment processor *)

Lemma mountEffect_cart (entry : URLSearchParams) (s : AppState) :
  cart (fst (mountEffect entry s)) = cart s.
Proof.
  unfold mountEffect. simpl. destruct (truthy (get "session_id" entry)); reflexivity.
Qed.

(** C3 as stated fails: a marker that is present with an empty value does not
    change the view. *)
Lemma empty_marker_is_not_detected :
  marker_present entry_empty_marker
  /\ currentView (app (start entry_empty_marker)) = "home"%string
  /\ currentView (app (start entry_empty_marker)) <> "success"%string.
Proof.
  split; [|split].
  - exists ""%string. left. reflexivity.
  - reflexivity.
  - intros H. discriminate H.
Qed.

(** C3, as the code has it.  When the first [session_id] of the entry URL's
    query string has a non-empty value, the page starts in the view
    ["success"] with the cart as it was initialised; the mount effect never
    touches the cart; and the "continue shopping" handler empties the cart
    and sets the view to ["home"]. *)
Theorem return_detected_on_nonempty_marker (entry : URLSearchParams) (v : string) :
  get "session_id" entry = Some v ->
  v <> ""%string ->
  currentView (app (start entry)) = "success"%string
  /\ cart (app (start entry)) = cart initialState
  /\ (forall s, cart (fst (mountEffect entry s)) = cart s)
  /\ (forall s, cart (continueShopping s) = []
                /\ currentView (continueShopping s) = "home"%string).
Proof.
  intros Hget Hv.
  assert (Ht : truthy (get "session_id" entry) = true).
  { rewrite Hget. simpl. destruct (String.eqb_spec v ""); [contradiction | reflexivity]. }
  split; [|split; [|split]].
  - unfold start, perform, mountEffect. simpl. rewrite Ht. reflexivity.
  - unfold start, perform. simpl. apply mountEffect_cart.
  - intros s. apply mountEffect_cart.
  - intros s. split; reflexivity.
Qed.

Lemma return_detected_on_nonempty_marker_witness :
  currentView (app (start entry_with_session)) = "success"%string
  /\ cart (continueShopping (setCart (addToCart artA) initialState)) = [].
Proof.
  assert (Hv : "cs_test_123"%string <> ""%string) by (intros H; discriminate H).
  pose proof (return_detected_on_nonempty_marker
                entry_with_session "cs_test_123" eq_refl Hv)
    as [Hview [_ [_ Hcont]]].
  split.
  - exact Hview.
  - exact (proj1 (Hcont (setCart (addToCart artA) initialState))).
Defined.

(* ------------------------------------------------------------------ *)
(** ** View dispatch *)

Lemma renderCurrentView_not_success (view : string) :
  renderCurrentView view <> SuccessPage.
Proof.
  unfold renderCurrentView.
  repeat match goal with
         | |- context [String.eqb ?a ?b] => destruct (String.eqb a b)
         end; discriminate.
Qed.

(** C10. [renderCurrentView] has no case for ["success"]: that view value
    falls to the default and renders the home page, and no view value at all
    renders the success page. *)
Theorem success_view_renders_home :
  renderCurrentView "success" = HomePage
  /\ forall view, renderCurrentView view <> SuccessPage.
Proof.
  split.
  - reflexivity.
  - apply renderCurrentView_not_success.
Qed.

(** Hence the button of the success page is never on screen, and its click
    is never a step of the page. *)
Lemma continueShopping_never_offered (p : Process) : step ContinueShopping p = p.
Proof.
  simpl. destruct (renderCurrentView (currentView (app p))) eqn:E; try reflexivity.
  exfalso. exact (renderCurrentView_not_success _ E).
Qed.

(* ------------------------------------------------------------------ *)
(** ** Checkout *)

Lemma handleCheckout_nonempty (o : FetchOutcome) (s : AppState) :
  cart s <> [] ->
  handleCheckout o s
  = (setIsCheckingOut false (setIsCheckingOut true s),
     Post "/api/checkout/create-session" (checkoutData (cart s)) :: after_fetch o).
Proof.
  intros H. unfold handleCheckout.
  destruct (cart s) as [|x c] eqn:E; [contradiction | reflexivity].
Qed.

(** The whole call is the click part followed by the settle part. *)
Lemma handleCheckout_split (o : FetchOutcome) (s : AppState) :
  cart s <> [] ->
  handleCheckout o s
  = (fst (handleCheckout_settle o (fst (handleCheckout_click s))),
     snd (handleCheckout_click s)
     ++ snd (handleCheckout_settle o (fst (handleCheckout_click s)))).
Proof.
  intros H. rewrite handleCheckout_nonempty by exact H.
  unfold handleCheckout_click, handleCheckout_settle.
  destruct (cart s) as [|x c] eqn:E; [contradiction | reflexivity].
Qed.

Lemma failed_throws (o : FetchOutcome) :
  failed o -> exists error, session_url o = Throw error.
Proof.
  destruct o as [e|r]; simpl; intros H.
  - exists e. reflexivity.
  - exists "Failed to create checkout session"%string.
    unfold session_url. simpl. rewrite H. reflexivity.
Qed.

Lemma after_fetch_failed (o : FetchOutcome) :
  failed o ->
  exists error,
    after_fetch o = [ConsoleError "Checkout error:" error;
                     Alert "Failed to start checkout. Please try again."].
Proof.
  intros H. destruct (failed_throws o H) as [e E].
  exists e. unfold after_fetch. rewrite E. reflexivity.
Qed.

(** C4. With a non-empty cart and a failing session-creation request
    (rejected, or answered with a status outside 200-299), [handleCheckout]
    leaves the entries and the total as they were, ends with the in-flight
    flag cleared, shows the failure alert, performs no navigation, and
    leaves the checkout button enabled for another attempt. *)
Theorem failed_checkout_keeps_cart (o : FetchOutcome) (s : AppState) :
  cart s <> [] ->
  failed o ->
  cart (fst (handleCheckout o s)) = cart s
  /\ getCartTotal (cart (fst (handleCheckout o s))) == getCartTotal (cart s)
  /\ isCheckingOut (fst (handleCheckout o s)) = false
  /\ In (Alert "Failed to start checkout. Please try again.")
        (snd (handleCheckout o s))
  /\ existsb is_navigate (snd (handleCheckout o s)) = false
  /\ checkout_enabled (fst (handleCheckout o s)) = true.
Proof.
  intros Hc Hf. rewrite handleCheckout_nonempty by exact Hc.
  destruct (after_fetch_failed o Hf) as [e E]. simpl. rewrite E.
  split; [reflexivity|]. split; [reflexivity|]. split; [reflexivity|].
  split; [simpl; auto|]. split; [reflexivity|].
  unfold checkout_enabled. simpl.
  destruct (cart s); [contradiction | reflexivity].
Qed.

Lemma failed_checkout_keeps_cart_witness :
  cart (fst (handleCheckout service_unavailable (setCart (addToCart artA) initialState)))
  = [mkLine artA 1]
  /\ isCheckingOut
       (fst (handleCheckout service_unavailable (setCart (addToCart artA) initialState)))
     = false.
Proof.
  assert (Hc : cart (setCart (addToCart artA) initialState) <> [])
    by (intros H; discriminate H).
  assert (Hf : failed service_unavailable) by reflexivity.
  pose proof (failed_checkout_keeps_cart
                service_unavailable (setCart (addToCart artA) initialState) Hc Hf)
    as [Hcart [_ [Hflag _]]].
  split; [exact Hcart | exact Hflag].
Defined.

(** A rejected request (network error) goes the same way. *)
Example network_error_checkout :
  handleCheckout (Rejected "Failed to fetch") (setCart (addToCart artA) initialState)
  = (setCart (addToCart artA) initialState,
     [Post "/api/checkout/create-session"
           {| items := [mkItem (IdStr "A") 1];
              customer_email := "customer@example.com" |};
      ConsoleError "Checkout error:" "Failed to fetch";
      Alert "Failed to start checkout. Please try again."]).
Proof. reflexivity. Qed.

(** C5. On the empty cart [handleCheckout] stops at its guard: the state is
    returned as it was (so the in-flight flag is not set and the cart is
    still empty), the only thing done is the "cart empty" alert, and no
    request is sent. *)
Theorem empty_cart_checkout_refused (o : FetchOutcome) (s : AppState) :
  cart s = [] ->
  handleCheckout o s = (s, [Alert "Your cart is empty!"])
  /\ existsb is_post (snd (handleCheckout o s)) = false
  /\ isCheckingOut (fst (handleCheckout o s)) = isCheckingOut s
  /\ cart (fst (handleCheckout o s)) = [].
Proof.
  intros H.
  assert (E : handleCheckout o s = (s, [Alert "Your cart is empty!"])).
  { unfold handleCheckout. rewrite H. reflexivity. }
  rewrite E. simpl. auto.
Qed.

Lemma empty_cart_checkout_refused_witness :
  handleCheckout (Rejected "Failed to fetch") initialState
  = (initialState, [Alert "Your cart is empty!"])
  /\ isCheckingOut (fst (handleCheckout (Rejected "Failed to fetch") initialState)) = false.
Proof.
  pose proof (empty_cart_checkout_refused (Rejected "Failed to fetch") initialState eq_refl)
    as [E [_ [Hflag _]]].
  split; [exact E | exact Hflag].
Defined.

(* ------------------------------------------------------------------ *)
(** ** After the redirect *)

Lemma location_href_last (l : list Effect) (e : Effect) :
  location_href (l ++ [e])
  = match e with Navigate url => Some url | _ => location_href l end.
Proof. unfold location_href. rewrite fold_left_app. reflexivity. Qed.

(** C9 as stated fails: right after the redirect has been issued the
    in-flight flag is cleared and the checkout button is enabled, and a
    further click sends a second session-creation request. *)
Lemma redirect_returns_to_idle :
  log after_redirect
  = [Get "/api/artworks"; Get "/api/featured-artworks";
     Post "/api/checkout/create-session" (checkoutData [mkLine artA 1]);
     Navigate "https://pay.example/c/cs_test_123"]
  /\ isCheckingOut (app after_redirect) = false
  /\ checkout_enabled (app after_redirect) = true
  /\ log (step CheckoutClick after_redirect)
     = log after_redirect
       ++ [Post "/api/checkout/create-session" (checkoutData [mkLine artA 1])]
  /\ isCheckingOut (app (step CheckoutClick after_redirect)) = true.
Proof. repeat split. Qed.

(** C9, as the code has it.  When the pending session-creation request
    succeeds, the handler assigns the returned address to
    [window.location.href] and then, in its [finally] block, clears the
    in-flight flag with the cart untouched.  There is no state that blocks
    what follows: the checkout button is enabled again exactly when the cart
    is not empty, a click on it then sends a new session-creation request,
    and when that one succeeds [window.location.href] is assigned again, the
    new address taking the place of the first. *)
Theorem redirect_then_flag_cleared
  (o : FetchOutcome) (v : JsValue) (p : Process) (n : nat) :
  session_url o = Return v ->
  pending p = S n ->
  log (step (CheckoutSettled o) p) = log p ++ [Navigate (ToString v)]
  /\ location_href (log (step (CheckoutSettled o) p)) = Some (ToString v)
  /\ isCheckingOut (app (step (CheckoutSettled o) p)) = false
  /\ cart (app (step (CheckoutSettled o) p)) = cart (app p)
  /\ checkout_enabled (app (step (CheckoutSettled o) p))
     = negb (List.length (cart (app p)) =? 0)%nat
  /\ (cart (app p) <> [] ->
        isCheckingOut (app (step CheckoutClick (step (CheckoutSettled o) p))) = true
        /\ log (step CheckoutClick (step (CheckoutSettled o) p))
           = log p ++ [Navigate (ToString v);
                       Post "/api/checkout/create-session"
                            (checkoutData (cart (app p)))]
        /\ forall o2 v2,
             session_url o2 = Return v2 ->
             location_href
               (log (step (CheckoutSettled o2)
                          (step CheckoutClick (step (CheckoutSettled o) p))))
             = Some (ToString v2)
             /\ isCheckingOut
                  (app (step (CheckoutSettled o2)
                             (step CheckoutClick (step (CheckoutSettled o) p))))
                = false).
Proof.
  intros Hs Hp.
  assert (E : step (CheckoutSettled o) p
              = mkProcess (search p) (setIsCheckingOut false (app p)) n
                          (log p ++ [Navigate (ToString v)])).
  { simpl. rewrite Hp. unfold perform, handleCheckout_settle, after_fetch.
    rewrite Hs. reflexivity. }
  rewrite E. cbn [log app].
  split; [reflexivity|]. split; [apply location_href_last|].
  split; [reflexivity|]. split; [reflexivity|]. split.
  - unfold checkout_enabled. simpl. apply andb_true_r.
  - intros Hne.
    assert (E1 : step CheckoutClick
                   (mkProcess (search p) (setIsCheckingOut false (app p)) n
                              (log p ++ [Navigate (ToString v)]))
                 = mkProcess (search p) (setIsCheckingOut true (app p)) (S n)
                     (log p ++ [Navigate (ToString v);
                                Post "/api/checkout/create-session"
                                     (checkoutData (cart (app p)))])).
    { cbn [step app]. unfold checkout_enabled, handleCheckout_click. cbn.
      destruct (cart (app p)) as [|x c] eqn:Ec; [contradiction|].
      cbn. rewrite <- app_assoc. reflexivity. }
    rewrite E1. cbn [log app].
    split; [reflexivity|]. split; [reflexivity|].
    intros o2 v2 Hs2.
    match goal with
    | |- context [step (CheckoutSettled o2) ?q] =>
        assert (E2 : step (CheckoutSettled o2) q
                     = mkProcess (search q) (setIsCheckingOut false (app q)) n
                                 (log q ++ [Navigate (ToString v2)]))
    end.
    { cbn [step pending]. unfold perform, handleCheckout_settle, after_fetch.
      rewrite Hs2. reflexivity. }
    rewrite E2. cbn [log app].
    split; [apply location_href_last | reflexivity].
Qed.

Lemma redirect_then_flag_cleared_witness :
  isCheckingOut (app after_redirect) = false
  /\ cart (app after_redirect) = [mkLine artA 1]
  /\ isCheckingOut (app (step CheckoutClick after_redirect)) = true.
Proof.
  pose proof (redirect_then_flag_cleared
                session_created (JsString "https://pay.example/c/cs_test_123")
                (run [AddToCart artA; CheckoutClick] (start []))
                0 eq_refl eq_refl)
    as [_ [_ [Hflag [Hcart [_ Hagain]]]]].
  split; [exact Hflag|]. split; [exact Hcart|].
  apply Hagain. discriminate.
Defined.

(* ------------------------------------------------------------------ *)
(** ** How the cart operations compose *)

Lemma requantify_absent (f : CartLine -> Z) (i : Ident) (c : Cart) :
  ~ has_line i c ->
  map (fun item => if strict_eq (line_id item) i
                   then with_quantity item (f item) else item) c = c.
Proof.
  unfold has_line. induction c as [|x c IH]; simpl; intros H; [reflexivity|].
  destruct (strict_eq_spec (line_id x) i) as [E|E].
  - exfalso. apply H. auto.
  - f_equal. apply IH. intros Hin. apply H. auto.
Qed.

Lemma has_line_app (i : Ident) (c1 c2 : Cart) :
  has_line i (c1 ++ c2) <-> has_line i c1 \/ has_line i c2.
Proof. unfold has_line. rewrite map_app. apply in_app_iff. Qed.

Lemma removeFromCart_app (i : Ident) (c1 c2 : Cart) :
  removeFromCart i (c1 ++ c2) = removeFromCart i c1 ++ removeFromCart i c2.
Proof. apply filter_app. Qed.

Lemma removeFromCart_requantify (f : CartLine -> Z) (i : Ident) (c : Cart) :
  removeFromCart i
    (map (fun item => if strict_eq (line_id item) i
                      then with_quantity item (f item) else item) c)
  = removeFromCart i c.
Proof.
  unfold removeFromCart. induction c as [|x c IH]; [reflexivity|].
  cbn [map filter]. destruct (strict_eq (line_id x) i) eqn:E.
  - rewrite line_id_with_quantity, E. cbn [negb]. exact IH.
  - rewrite E. cbn [negb]. f_equal. exact IH.
Qed.

Lemma removeFromCart_gone (i : Ident) (c : Cart) : ~ has_line i (removeFromCart i c).
Proof.
  unfold has_line, removeFromCart. rewrite in_map_iff.
  intros [l [E H]]. apply filter_In in H. destruct H as [_ H].
  rewrite <- E, strict_eq_refl in H. discriminate H.
Qed.

(** An entry of a cart without duplicates cuts it into the part before and
    the part after, neither of which has its identifier. *)
Lemma unique_split (c : Cart) (item : CartLine) :
  unique_ids c -> In item c ->
  exists before after,
    c = before ++ item :: after
    /\ ~ has_line (line_id item) before
    /\ ~ has_line (line_id item) after.
Proof.
  intros Hu Hin. destruct (in_split _ _ Hin) as [before [after E]].
  exists before, after. split; [exact E|].
  unfold unique_ids in Hu. rewrite E, map_app in Hu. simpl in Hu.
  apply NoDup_remove_2 in Hu. unfold has_line.
  split; intros H; apply Hu; apply in_or_app; auto.
Qed.

Lemma updateCartQuantity_single (q : Z) (before after : Cart) (l : CartLine) :
  q <> 0%Z ->
  ~ has_line (line_id l) before ->
  ~ has_line (line_id l) after ->
  updateCartQuantity (line_id l) q (before ++ l :: after)
  = before ++ with_quantity l q :: after.
Proof.
  intros Hq Hb Ha. rewrite updateCartQuantity_nonzero by exact Hq.
  rewrite map_app. simpl.
  rewrite (requantify_absent (fun _ => q) _ _ Hb),
          (requantify_absent (fun _ => q) _ _ Ha), strict_eq_refl.
  reflexivity.
Qed.

Lemma removeFromCart_single (before after : Cart) (l : CartLine) :
  ~ has_line (line_id l) before ->
  ~ has_line (line_id l) after ->
  removeFromCart (line_id l) (before ++ l :: after) = before ++ after.
Proof.
  intros Hb Ha. rewrite removeFromCart_app.
  rewrite (removeFromCart_absent _ _ Hb).
  unfold removeFromCart at 1. simpl. rewrite strict_eq_refl. simpl.
  fold (removeFromCart (line_id l) after).
  rewrite (removeFromCart_absent _ _ Ha). reflexivity.
Qed.

(** X1. After [addToCart(artwork)] the cart has an entry under the artwork's
    identifier, and removing that identifier afterwards gives what removing
    it from the original cart gives; for an artwork that was not in the cart,
    adding and then removing returns the original cart. *)
Theorem add_then_remove (a : Artwork) (c : Cart) :
  has_line (id a) (addToCart a c)
  /\ removeFromCart (id a) (addToCart a c) = removeFromCart (id a) c
  /\ (~ has_line (id a) c -> removeFromCart (id a) (addToCart a c) = c).
Proof.
  assert (Hrem : removeFromCart (id a) (addToCart a c) = removeFromCart (id a) c).
  { destruct (has_line_dec (id a) c) as [H|H].
    - rewrite addToCart_present by exact H.
      apply removeFromCart_requantify with (f := fun item => (quantity item + 1)%Z).
    - rewrite addToCart_absent by exact H. rewrite removeFromCart_app.
      unfold removeFromCart at 2. simpl. unfold line_id at 1. simpl.
      rewrite strict_eq_refl. simpl. apply app_nil_r. }
  split; [|split].
  - destruct (has_line_dec (id a) c) as [H|H].
    + rewrite addToCart_present by exact H. unfold has_line in *.
      rewrite map_requantify_ids with (f := fun item => (quantity item + 1)%Z). exact H.
    + rewrite addToCart_absent by exact H. apply has_line_app. right.
      left. reflexivity.
  - exact Hrem.
  - intros H. rewrite Hrem. apply removeFromCart_absent. exact H.
Qed.

Lemma add_then_remove_witness :
  removeFromCart (IdStr "B") (addToCart artB [mkLine artA 2]) = [mkLine artA 2].
Proof.
  apply (proj2 (proj2 (add_then_remove artB [mkLine artA 2]))).
  unfold has_line; simpl. intros [H|[]]. discriminate H.
Defined.

(** X2. [removeFromCart(id)] deletes the entries under [id] and nothing
    else: what remains are the entries of the cart under other identifiers,
    each as it was and in the order they had (an entry of the cart is dropped
    if it is under [id] and stays in its place between what remains of the
    entries before it and after it otherwise).  A cart without an entry
    under [id] comes back as it is, a second removal changes nothing, and two
    removals give the same cart in either order. *)
Theorem removeFromCart_deletes (i j : Ident) (c : Cart) :
  ~ has_line i (removeFromCart i c)
  /\ (forall item, In item (removeFromCart i c) <-> In item c /\ line_id item <> i)
  /\ (forall before item after,
        c = before ++ item :: after ->
        removeFromCart i c
        = removeFromCart i before
          ++ (if strict_eq (line_id item) i then [] else [item])
          ++ removeFromCart i after)
  /\ (~ has_line i c -> removeFromCart i c = c)
  /\ (j <> i -> (has_line j (removeFromCart i c) <-> has_line j c))
  /\ removeFromCart i (removeFromCart i c) = removeFromCart i c
  /\ removeFromCart i (removeFromCart j c) = removeFromCart j (removeFromCart i c).
Proof.
  split; [apply removeFromCart_gone|].
  split; [|split; [|split; [|split; [|split]]]].
  - intros item. unfold removeFromCart. rewrite filter_In, negb_true_iff.
    rewrite strict_eq_false. reflexivity.
  - intros before item after E. subst c. rewrite removeFromCart_app.
    f_equal. unfold removeFromCart at 1. cbn [filter].
    destruct (strict_eq (line_id item) i); reflexivity.
  - apply removeFromCart_absent.
  - intros Hji. split; [apply removeFromCart_ids_sub|].
    unfold has_line, removeFromCart. rewrite !in_map_iff.
    intros [l [E H]]. exists l. split; [exact E|].
    apply filter_In. split; [exact H|].
    apply negb_true_iff, strict_eq_false. congruence.
  - apply removeFromCart_absent, removeFromCart_gone.
  - unfold removeFromCart. induction c as [|x c IH]; simpl; [reflexivity|].
    destruct (strict_eq (line_id x) j) eqn:Ej, (strict_eq (line_id x) i) eqn:Ei;
      simpl; rewrite ?Ej, ?Ei; simpl; rewrite IH; reflexivity.
Qed.

Lemma removeFromCart_deletes_witness :
  removeFromCart (IdStr "A") [mkLine artB 1; mkLine artA 2; mkLine artB 3]
  = [mkLine artB 1; mkLine artB 3]
  /\ (has_line (IdStr "B") (removeFromCart (IdStr "A") [mkLine artA 2; mkLine artB 1])
      <-> has_line (IdStr "B") [mkLine artA 2; mkLine artB 1]).
Proof.
  split.
  - exact (proj1 (proj2 (proj2 (removeFromCart_deletes
                                  (IdStr "A") (IdStr "B")
                                  [mkLine artB 1; mkLine artA 2; mkLine artB 3])))
                 [mkLine artB 1] (mkLine artA 2) [mkLine artB 3] eq_refl).
  - apply (proj1 (proj2 (proj2 (proj2 (proj2 (removeFromCart_deletes
             (IdStr "A") (IdStr "B") [mkLine artA 2; mkLine artB 1])))))).
    intros H. discriminate H.
Defined.

(** X3. [updateCartQuantity] never creates an entry: on a cart without an
    entry under the identifier it returns the cart unchanged, whatever the
    quantity. *)
Theorem updateCartQuantity_absent (i : Ident) (q : Z) (c : Cart) :
  ~ has_line i c -> updateCartQuantity i q c = c.
Proof.
  intros H. unfold updateCartQuantity. destruct (q =? 0)%Z.
  - apply removeFromCart_absent. exact H.
  - apply requantify_absent with (f := fun _ => q). exact H.
Qed.

Lemma updateCartQuantity_absent_witness :
  updateCartQuantity (IdStr "B") 5 [mkLine artA 2] = [mkLine artA 2].
Proof.
  apply (updateCartQuantity_absent (IdStr "B") 5 [mkLine artA 2]).
  unfold has_line; simpl. intros [H|[]]. discriminate H.
Defined.

(** X4. Two calls of [updateCartQuantity] on one identifier: when the first
    quantity is not zero the second call alone gives the same cart; when the
    first quantity is zero the entry is gone and the second call does not
    bring it back. *)
Theorem updateCartQuantity_twice (i : Ident) (q1 q2 : Z) (c : Cart) :
  (q1 <> 0%Z ->
     updateCartQuantity i q2 (updateCartQuantity i q1 c) = updateCartQuantity i q2 c)
  /\ updateCartQuantity i q2 (updateCartQuantity i 0 c) = removeFromCart i c.
Proof.
  split.
  - intros H1. rewrite (updateCartQuantity_nonzero i q1 c H1).
    unfold updateCartQuantity. destruct (q2 =? 0)%Z.
    + apply removeFromCart_requantify with (f := fun _ => q1).
    + rewrite map_map. apply map_ext. intros x.
      destruct (strict_eq (line_id x) i) eqn:E.
      * rewrite line_id_with_quantity, E. reflexivity.
      * rewrite E. reflexivity.
  - change (updateCartQuantity i 0 c) with (removeFromCart i c).
    unfold updateCartQuantity. destruct (q2 =? 0)%Z.
    + apply removeFromCart_absent, removeFromCart_gone.
    + apply requantify_absent with (f := fun _ => q2). apply removeFromCart_gone.
Qed.

Lemma updateCartQuantity_twice_witness :
  updateCartQuantity (IdStr "A") 7 (updateCartQuantity (IdStr "A") 3 [mkLine artA 2])
  = updateCartQuantity (IdStr "A") 7 [mkLine artA 2].
Proof.
  apply (proj1 (updateCartQuantity_twice (IdStr "A") 3 7 [mkLine artA 2])).
  lia.
Defined.

(* ------------------------------------------------------------------ *)
(** ** The quantity buttons *)

Lemma cart_inv_quantity (c : Cart) (item : CartLine) :
  cart_inv c -> In item c -> (1 <= quantity item)%Z.
Proof.
  intros [_ Hp] Hin. unfold positive_quantities in Hp.
  rewrite Forall_forall in Hp. apply Hp. exact Hin.
Qed.

(** X5. On a cart that satisfies the invariant, the "+" button of an entry
    gives the same cart as adding that entry's artwork once more. *)
Theorem plus_button_is_add (c : Cart) (item : CartLine) :
  cart_inv c -> In item c ->
  clickPlus item c = addToCart (ref item) c.
Proof.
  intros Hc Hin. pose proof (cart_inv_quantity c item Hc Hin) as Hq.
  destruct (unique_split c item (proj1 Hc) Hin) as [before [after [E [Hb Ha]]]].
  rewrite E. unfold clickPlus.
  rewrite updateCartQuantity_single by (try assumption; lia).
  rewrite addToCart_single by (try assumption; reflexivity).
  reflexivity.
Qed.

Lemma plus_button_is_add_witness :
  clickPlus (mkLine artB 1) [mkLine artA 2; mkLine artB 1]
  = addToCart artB [mkLine artA 2; mkLine artB 1].
Proof.
  apply (plus_button_is_add [mkLine artA 2; mkLine artB 1] (mkLine artB 1) sample_cart_inv).
  simpl. right. left. reflexivity.
Defined.

(** X6. On a cart that satisfies the invariant, "-" after "+" on an entry
    gives the cart back; so does "+" after "-" when the entry's quantity is
    at least 2; and "-" on an entry with quantity 1 removes the entry. *)
Theorem quantity_buttons_round_trip (c : Cart) (item : CartLine) :
  cart_inv c -> In item c ->
  clickMinus (with_quantity item (quantity item + 1)) (clickPlus item c) = c
  /\ ((2 <= quantity item)%Z ->
        clickPlus (with_quantity item (quantity item - 1)) (clickMinus item c) = c)
  /\ (quantity item = 1%Z -> clickMinus item c = removeFromCart (line_id item) c).
Proof.
  intros Hc Hin. pose proof (cart_inv_quantity c item Hc Hin) as Hq.
  destruct (unique_split c item (proj1 Hc) Hin) as [before [after [E [Hb Ha]]]].
  assert (Hback : forall q, with_quantity (with_quantity item q) (quantity item) = item).
  { intros q. destruct item as [r qi]. reflexivity. }
  split; [|split].
  - rewrite E at 1. unfold clickPlus, clickMinus.
    rewrite updateCartQuantity_single by (try assumption; lia).
    rewrite line_id_with_quantity.
    change (quantity (with_quantity item (quantity item + 1))) with (quantity item + 1)%Z.
    rewrite <- (line_id_with_quantity item (quantity item + 1)) at 1.
    rewrite updateCartQuantity_single
      by (rewrite ?line_id_with_quantity; try assumption; lia).
    replace (quantity item + 1 - 1)%Z with (quantity item) by lia.
    rewrite Hback. symmetry. exact E.
  - intros H2. rewrite E at 1. unfold clickPlus, clickMinus.
    rewrite updateCartQuantity_single by (try assumption; lia).
    rewrite line_id_with_quantity.
    change (quantity (with_quantity item (quantity item - 1))) with (quantity item - 1)%Z.
    rewrite <- (line_id_with_quantity item (quantity item - 1)) at 1.
    rewrite updateCartQuantity_single
      by (rewrite ?line_id_with_quantity; try assumption; lia).
    replace (quantity item - 1 + 1)%Z with (quantity item) by lia.
    rewrite Hback. symmetry. exact E.
  - intros H1. unfold clickMinus. rewrite H1. reflexivity.
Qed.

Lemma quantity_buttons_round_trip_witness :
  clickMinus (mkLine artA 3) (clickPlus (mkLine artA 2) [mkLine artA 2; mkLine artB 1])
  = [mkLine artA 2; mkLine artB 1]
  /\ clickPlus (mkLine artA 1) (clickMinus (mkLine artA 2) [mkLine artA 2; mkLine artB 1])
     = [mkLine artA 2; mkLine artB 1].
Proof.
  assert (Hin : In (mkLine artA 2) [mkLine artA 2; mkLine artB 1])
    by (left; reflexivity).
  pose proof (quantity_buttons_round_trip
                [mkLine artA 2; mkLine artB 1] (mkLine artA 2) sample_cart_inv Hin)
    as [Hpm [Hmp _]].
  split; [exact Hpm | apply Hmp; simpl; lia].
Defined.

(* ------------------------------------------------------------------ *)
(** ** How the operations move the total *)

Lemma sum_lines_app (c1 c2 : Cart) :
  sum_lines (c1 ++ c2) == sum_lines c1 + sum_lines c2.
Proof.
  induction c1 as [|x c1 IH]; simpl.
  - ring.
  - rewrite IH. ring.
Qed.

Lemma sum_lines_around (before after : Cart) (l : CartLine) :
  sum_lines (before ++ l :: after)
  == sum_lines before + sum_lines after + line_price l * inject_Z (quantity l).
Proof. rewrite sum_lines_app. simpl. ring. Qed.

Lemma sum_lines_after_remove (c : Cart) (item : CartLine) :
  unique_ids c -> In item c ->
  sum_lines (removeFromCart (line_id item) c)
  == sum_lines c - line_price item * inject_Z (quantity item).
Proof.
  intros Hu Hin.
  destruct (unique_split c item Hu Hin) as [before [after [E [Hb Ha]]]].
  rewrite E, removeFromCart_single by assumption.
  rewrite sum_lines_around, sum_lines_app. ring.
Qed.

Lemma sum_lines_after_update (c : Cart) (item : CartLine) (q : Z) :
  unique_ids c -> In item c ->
  sum_lines (updateCartQuantity (line_id item) q c)
  == sum_lines c + line_price item * (inject_Z q - inject_Z (quantity item)).
Proof.
  intros Hu Hin. destruct (Z.eq_dec q 0) as [Hq|Hq].
  - subst q. change (updateCartQuantity (line_id item) 0 c)
      with (removeFromCart (line_id item) c).
    rewrite (sum_lines_after_remove c item Hu Hin).
    change (inject_Z 0) with 0. ring.
  - destruct (unique_split c item Hu Hin) as [before [after [E [Hb Ha]]]].
    rewrite E, updateCartQuantity_single by assumption.
    rewrite !sum_lines_around.
    change (line_price (with_quantity item q)) with (line_price item).
    change (quantity (with_quantity item q)) with q. ring.
Qed.

Lemma sum_lines_after_add_present (a : Artwork) (c : Cart) (item : CartLine) :
  unique_ids c -> In item c -> line_id item = id a ->
  sum_lines (addToCart a c) == sum_lines c + line_price item.
Proof.
  intros Hu Hin Hid.
  destruct (unique_split c item Hu Hin) as [before [after [E [Hb Ha]]]].
  rewrite Hid in Hb, Ha. rewrite E, addToCart_single by assumption.
  rewrite !sum_lines_around.
  change (line_price (with_quantity item (quantity item + 1))) with (line_price item).
  change (quantity (with_quantity item (quantity item + 1))) with (quantity item + 1)%Z.
  rewrite inject_Z_plus. change (inject_Z 1) with 1. ring.
Qed.

Lemma sum_lines_after_add_absent (a : Artwork) (c : Cart) :
  ~ has_line (id a) c -> sum_lines (addToCart a c) == sum_lines c + price a.
Proof.
  intros H. rewrite addToCart_absent by exact H.
  rewrite sum_lines_app. simpl.
  unfold line_price. simpl. change (inject_Z 1) with 1. ring.
Qed.

(** X7. On a cart without duplicate identifiers whose total the engine
    computes without rounding: if the total after setting the quantity of an
    entry to [q] is computed without rounding too, it differs from the total
    before by the entry's price times the change of quantity; and if the
    total after removing the entry is computed without rounding, it is the
    total before less the entry's price times its quantity. *)
Theorem total_after_update (c : Cart) (item : CartLine) (q : Z) :
  unique_ids c -> In item c ->
  Binary64.rounds_nowhere c = true ->
  (Binary64.rounds_nowhere (updateCartQuantity (line_id item) q c) = true ->
     Binary64.value (Binary64.getCartTotal (updateCartQuantity (line_id item) q c))
     == Binary64.value (Binary64.getCartTotal c)
        + line_price item * (inject_Z q - inject_Z (quantity item)))
  /\ (Binary64.rounds_nowhere (removeFromCart (line_id item) c) = true ->
        Binary64.value (Binary64.getCartTotal (removeFromCart (line_id item) c))
        == Binary64.value (Binary64.getCartTotal c)
           - line_price item * inject_Z (quantity item)).
Proof.
  intros Hu Hin Hc. split; intros H.
  - rewrite !binary64_total_exact by assumption.
    apply sum_lines_after_update; assumption.
  - rewrite !binary64_total_exact by assumption.
    apply sum_lines_after_remove; assumption.
Qed.

Lemma total_after_update_witness :
  Binary64.value
    (Binary64.getCartTotal
       (updateCartQuantity (IdStr "A") 5 [mkLine artA 2; mkLine artB 1]))
  == Binary64.value (Binary64.getCartTotal [mkLine artA 2; mkLine artB 1])
     + 100 * (inject_Z 5 - inject_Z 2).
Proof.
  assert (Hin : In (mkLine artA 2) [mkLine artA 2; mkLine artB 1])
    by (left; reflexivity).
  assert (Hc : Binary64.rounds_nowhere [mkLine artA 2; mkLine artB 1] = true)
    by (vm_compute; reflexivity).
  apply (proj1 (total_after_update [mkLine artA 2; mkLine artB 1] (mkLine artA 2) 5
                                   (proj1 sample_cart_inv) Hin Hc)).
  vm_compute. reflexivity.
Defined.

(** X8. Adding an artwork that has an entry in a cart without duplicate
    identifiers reads nothing but the identifier of the artwork passed in:
    the cart is the one that adding the stored snapshot gives, so the entry
    keeps the price it was first added with.  Where the engine computes the
    totals before and after without rounding, the total rises by that stored
    price, and by the artwork's own price when the artwork had no entry. *)
Theorem total_after_add (a : Artwork) (c : Cart) :
  unique_ids c ->
  (forall item, In item c -> line_id item = id a ->
     addToCart a c = addToCart (ref item) c
     /\ (Binary64.rounds_nowhere c = true ->
         Binary64.rounds_nowhere (addToCart a c) = true ->
         Binary64.value (Binary64.getCartTotal (addToCart a c))
         == Binary64.value (Binary64.getCartTotal c) + line_price item))
  /\ (~ has_line (id a) c ->
      Binary64.rounds_nowhere c = true ->
      Binary64.rounds_nowhere (addToCart a c) = true ->
      Binary64.value (Binary64.getCartTotal (addToCart a c))
      == Binary64.value (Binary64.getCartTotal c) + price a).
Proof.
  intros Hu. split.
  - intros item Hin Hid. split.
    + destruct (unique_split c item Hu Hin) as [before [after [E [Hb Ha]]]].
      rewrite E.
      rewrite (addToCart_single (ref item) before after item eq_refl Hb Ha).
      rewrite Hid in Hb, Ha.
      rewrite (addToCart_single a before after item Hid Hb Ha). reflexivity.
    + intros Hc Hc'. rewrite !binary64_total_exact by assumption.
      apply sum_lines_after_add_present; assumption.
  - intros H Hc Hc'. rewrite !binary64_total_exact by assumption.
    apply sum_lines_after_add_absent. exact H.
Qed.

Lemma total_after_add_witness :
  addToCart artA_repriced [mkLine artA 2; mkLine artB 1]
  = addToCart artA [mkLine artA 2; mkLine artB 1]
  /\ Binary64.value
       (Binary64.getCartTotal (addToCart artA_repriced [mkLine artA 2; mkLine artB 1]))
     == Binary64.value (Binary64.getCartTotal [mkLine artA 2; mkLine artB 1]) + 100.
Proof.
  assert (Hin : In (mkLine artA 2) [mkLine artA 2; mkLine artB 1])
    by (left; reflexivity).
  pose proof (proj1 (total_after_add artA_repriced [mkLine artA 2; mkLine artB 1]
                                     (proj1 sample_cart_inv))
                    (mkLine artA 2) Hin eq_refl) as [Hsame Htotal].
  split; [exact Hsame|].
  apply Htotal; vm_compute; reflexivity.
Defined.



(** X10. The header badge counts entries, not items: adding an artwork that
    is in the cart leaves it as it is, adding one that is not raises it by
    one, a non-zero quantity update leaves it as it is, and on a cart without
    duplicate identifiers removing an entry lowers it by one. *)
Theorem badge_counts_entries (c : Cart) :
  (forall a, has_line (id a) c -> cartBadge (addToCart a c) = cartBadge c)
  /\ (forall a, ~ has_line (id a) c -> cartBadge (addToCart a c) = S (cartBadge c))
  /\ (forall i q, q <> 0%Z -> cartBadge (updateCartQuantity i q c) = cartBadge c)
  /\ (forall item, unique_ids c -> In item c ->
        S (cartBadge (removeFromCart (line_id item) c)) = cartBadge c).
Proof.
  unfold cartBadge. split; [|split; [|split]].
  - intros a H. rewrite addToCart_present by exact H. apply length_map.
  - intros a H. rewrite addToCart_absent by exact H.
    rewrite length_app. simpl. lia.
  - intros i q H. rewrite updateCartQuantity_nonzero by exact H. apply length_map.
  - intros item Hu Hin.
    destruct (unique_split c item Hu Hin) as [before [after [E [Hb Ha]]]].
    rewrite E, removeFromCart_single by assumption.
    rewrite !length_app. simpl. lia.
Qed.

Lemma badge_counts_entries_witness :
  cartBadge (addToCart artA [mkLine artA 2; mkLine artB 1]) = 2%nat
  /\ S (cartBadge (removeFromCart (IdStr "B") [mkLine artA 2; mkLine artB 1])) = 2%nat.
Proof.
  pose proof (badge_counts_entries [mkLine artA 2; mkLine artB 1]) as [Hadd [_ [_ Hrem]]].
  split.
  - apply (Hadd artA). unfold has_line; simpl. left. reflexivity.
  - apply (Hrem (mkLine artB 1) (proj1 sample_cart_inv)). right. left. reflexivity.
Defined.

(* ------------------------------------------------------------------ *)
(** ** When checkout navigates *)




(** The 2xx answers, run: a body that is not JSON, the document [null], and
    a document without [session_url]. *)
Example ok_without_json_checkout :
  snd (handleCheckout ok_without_json (setCart (addToCart artA) initialState))
  = [Post "/api/checkout/create-session" (checkoutData [mkLine artA 1]);
     ConsoleError "Checkout error:" "Unexpected end of JSON input";
     Alert "Failed to start checkout. Please try again."].
Proof. reflexivity. Qed.

Example ok_with_null_checkout :
  snd (handleCheckout ok_with_null (setCart (addToCart artA) initialState))
  = [Post "/api/checkout/create-session" (checkoutData [mkLine artA 1]);
     ConsoleError "Checkout error:" "Cannot read properties of null";
     Alert "Failed to start checkout. Please try again."].
Proof. reflexivity. Qed.

Example ok_without_url_checkout :
  handleCheckout ok_without_url (setCart (addToCart artA) initialState)
  = (setCart (addToCart artA) initialState,
     [Post "/api/checkout/create-session" (checkoutData [mkLine artA 1]);
      Navigate "undefined"]).
Proof. reflexivity. Qed.

(** X12. The request body built from a non-empty cart that satisfies the
    invariant lists the cart's identifiers and quantities in cart order, and
    so has at least one item, no artwork twice and no quantity below 1. *)
Theorem checkoutData_well_formed (c : Cart) :
  cart_inv c -> c <> [] ->
  map artwork_id (items (checkoutData c)) = map line_id c
  /\ map item_quantity (items (checkoutData c)) = map quantity c
  /\ well_formed_request (checkoutData c).
Proof.
  intros [Hu Hp] Hne.
  assert (Hids : map artwork_id (items (checkoutData c)) = map line_id c).
  { simpl. rewrite map_map. reflexivity. }
  split; [exact Hids|]. split.
  - simpl. rewrite map_map. reflexivity.
  - unfold well_formed_request. rewrite Hids. split; [|split].
    + simpl. destruct c; [contradiction | discriminate].
    + exact Hu.
    + simpl. unfold positive_quantities in Hp. rewrite Forall_forall in *.
      intros it Hit. apply in_map_iff in Hit. destruct Hit as [l [E Hl]].
      subst it. simpl. apply Hp. exact Hl.
Qed.

Lemma checkoutData_well_formed_witness :
  well_formed_request (checkoutData [mkLine artA 2; mkLine artB 1]).
Proof.
  apply (checkoutData_well_formed [mkLine artA 2; mkLine artB 1] sample_cart_inv).
  discriminate.
Defined.

(* ------------------------------------------------------------------ *)
(** ** What one step of the page does to each part of the state *)

Lemma checkout_enabled_true (s : AppState) :
  checkout_enabled s = true <-> cart s <> [] /\ isCheckingOut s = false.
Proof.
  unfold checkout_enabled. destruct (cart s) as [|x c]; simpl.
  - split; [discriminate | intros [H _]; contradiction].
  - destruct (isCheckingOut s); simpl; split; try discriminate; auto.
    + intros [_ H]. discriminate H.
    + intros _. split; [discriminate | reflexivity].
Qed.

Lemma handleCheckout_click_enabled (s : AppState) :
  checkout_enabled s = true ->
  handleCheckout_click s
  = (setIsCheckingOut true s,
     [Post "/api/checkout/create-session" (checkoutData (cart s))]).
Proof.
  intros H. apply checkout_enabled_true in H. destruct H as [H _].
  unfold handleCheckout_click. destruct (cart s); [contradiction | reflexivity].
Qed.

(** Destructs the event of a step and the tests the step makes. *)
Ltac step_cases e :=
  destruct e as [e| |]; [destruct e|idtac|idtac]; cbn [page_step step];
  repeat match goal with
         | |- context [if String.eqb ?a ?b then _ else _] =>
             destruct (String.eqb a b) eqn:?
         | |- context [if checkout_enabled ?s then _ else _] =>
             let H := fresh "Hen" in
             destruct (checkout_enabled s) eqn:H;
             [rewrite (handleCheckout_click_enabled s H)|]
         | |- context [match pending ?p with O => _ | S _ => _ end] =>
             destruct (pending p) eqn:?
         | |- context [match renderCurrentView ?v with SuccessPage => _ | _ => _ end] =>
             let H := fresh "Hpage" in
             destruct (renderCurrentView v) eqn:H;
             [idtac|idtac|idtac|idtac|idtac|
              exfalso; exact (renderCurrentView_not_success _ H)]
         end.

Lemma page_step_search (e : PageEvent) (p : Process) :
  search (page_step e p) = search p.
Proof. step_cases e; reflexivity. Qed.

Lemma page_step_cart (e : PageEvent) (p : Process) :
  cart (app (page_step e p))
  = match e with
    | Ui (AddToCart a) => addToCart a (cart (app p))
    | Ui (RemoveFromCart i) => removeFromCart i (cart (app p))
    | Ui (UpdateCartQuantity i q) => updateCartQuantity i q (cart (app p))
    | _ => cart (app p)
    end.
Proof.
  step_cases e; try reflexivity.
  cbn. destruct (truthy _); reflexivity.
Qed.

Lemma page_step_view (e : PageEvent) (p : Process) :
  currentView (app (page_step e p))
  = match e with
    | Ui (SetView v) => v
    | Ui (OpenDetail _) => "artwork-detail"%string
    | Ui (SetFilter c) =>
        if String.eqb c (filterCategory (app p)) then currentView (app p)
        else if truthy (get "session_id" (search p)) then "success"%string
             else currentView (app p)
    | _ => currentView (app p)
    end.
Proof.
  destruct e as [e| |]; [destruct e|idtac|idtac]; cbn [page_step step];
    try reflexivity.
  - destruct (String.eqb c (filterCategory (app p))); [reflexivity|].
    cbn. destruct (truthy _); reflexivity.
  - destruct (checkout_enabled (app p)) eqn:H; [|reflexivity].
    rewrite (handleCheckout_click_enabled _ H). reflexivity.
  - destruct (pending p); reflexivity.
  - destruct (renderCurrentView (currentView (app p))) eqn:H; try reflexivity.
    exfalso. exact (renderCurrentView_not_success _ H).
Qed.

Lemma page_step_selected (e : PageEvent) (p : Process) :
  selectedArtwork (app (page_step e p))
  = match e with
    | Ui (OpenDetail a) => Some a
    | _ => selectedArtwork (app p)
    end.
Proof.
  step_cases e; try reflexivity.
  cbn. destruct (truthy _); reflexivity.
Qed.

(** Every effect in the record after a step was there before, or is the
    session-creation request for the cart as it is, sent with the checkout
    button enabled, or is neither a request body nor the empty-cart alert. *)
Lemma page_step_effects (e : PageEvent) (p : Process) (eff : Effect) :
  In eff (log (page_step e p)) ->
  In eff (log p)
  \/ (eff = Post "/api/checkout/create-session" (checkoutData (cart (app p)))
      /\ checkout_enabled (app p) = true)
  \/ (is_post eff = false /\ eff <> Alert "Your cart is empty!").
Proof.
  step_cases e; cbn; try (intros H; left; exact H).
  - rewrite in_app_iff. intros [H|[H|[H|[]]]]; [left; exact H | | ];
      right; right; subst eff; split; (reflexivity || discriminate).
  - rewrite in_app_iff. intros [H|[H|[]]]; [left; exact H|].
    right. left. split; [symmetry; exact H | reflexivity].
  - rewrite in_app_iff. unfold after_fetch.
    intros [H|H]; [left; exact H|]. right. right.
    destruct (session_url o); simpl in H;
      repeat (destruct H as [H|H]; [subst eff; split; (reflexivity || discriminate)|]);
      contradiction.
  - rewrite in_app_iff. intros [H|[H|[]]]; [left; exact H|].
    right. right. subst eff. split; (reflexivity || discriminate).
  - rewrite in_app_iff. intros [H|[H|[]]]; [left; exact H|].
    right. right. subst eff. split; (reflexivity || discriminate).
Qed.

Lemma start_log (entry : URLSearchParams) :
  log (start entry) = [Get "/api/artworks"; Get "/api/featured-artworks"].
Proof. reflexivity. Qed.

Lemma reachable_search (entry : URLSearchParams) (p : Process) :
  reachable entry p -> search p = entry.
Proof.
  induction 1 as [|p e _ IH _]; [reflexivity|].
  rewrite page_step_search. exact IH.
Qed.

Lemma reachable_inv (entry : URLSearchParams) (p : Process) :
  reachable entry p -> cart_inv (cart (app p)).
Proof.
  induction 1 as [|p e _ IH Hoff].
  - change (cart_inv (cart (fst (mountEffect entry initialState)))).
    rewrite mountEffect_cart. split; constructor.
  - rewrite page_step_cart. destruct e as [e| |]; try exact IH.
    destruct e; try exact IH.
    + apply addToCart_inv. exact IH.
    + apply removeFromCart_inv. exact IH.
    + simpl in Hoff. destruct Hoff as [item [Hin [_ Hq]]].
      pose proof (cart_inv_quantity _ _ IH Hin) as H1.
      apply updateCartQuantity_inv; [lia | exact IH].
Qed.

(** The visit of [sample_visit] is one the page allows. *)
Lemma sample_visit_reachable : reachable [] (page_run sample_visit (start [])).
Proof.
  unfold page_run, sample_visit. cbn [fold_left].
  repeat (apply reach_step; [|cbn]).
  - apply reach_start.
  - exact I.
  - left. reflexivity.
  - left. reflexivity.
  - right. left. reflexivity.
  - exists (mkLine artA 2). split; [left; reflexivity|].
    split; [reflexivity | left; reflexivity].
  - reflexivity.
Defined.

(* ------------------------------------------------------------------ *)
(** ** What holds in every state the page can get into *)

(** X13. Whatever the visitor does through the rendered page, the cart has
    at most one entry per identifier and no quantity below 1: the "-" button
    of an entry with quantity 1 removes the entry, and nothing on the page
    passes a negative quantity. *)
Theorem interface_keeps_cart_invariant (entry : URLSearchParams) (p : Process) :
  reachable entry p -> cart_inv (cart (app p)).
Proof. apply reachable_inv. Qed.

Lemma interface_keeps_cart_invariant_witness :
  cart_inv (cart (app (page_run sample_visit (start [])))).
Proof.
  exact (interface_keeps_cart_invariant [] _ sample_visit_reachable).
Defined.

(** X14. The in-flight flag is set exactly while one session-creation request
    is pending, and there is never more than one: a click on the checkout
    button while a request is pending sends nothing. *)
Theorem one_request_in_flight (entry : URLSearchParams) (p : Process) :
  reachable entry p ->
  pending p = (if isCheckingOut (app p) then 1 else 0)%nat
  /\ (isCheckingOut (app p) = true -> step CheckoutClick p = p).
Proof.
  intros Hr.
  assert (Hinv : pending p = (if isCheckingOut (app p) then 1 else 0)%nat).
  { induction Hr as [|p e _ IH _];
      [cbn; destruct (truthy _); reflexivity|].
    destruct e as [e| |]; [destruct e|idtac|idtac]; cbn [page_step step];
      try exact IH.
    - destruct (String.eqb c (filterCategory (app p))); [exact IH|].
      cbn. destruct (truthy _); exact IH.
    - destruct (checkout_enabled (app p)) eqn:Hen; [|exact IH].
      rewrite (handleCheckout_click_enabled _ Hen).
      apply checkout_enabled_true in Hen. destruct Hen as [_ Hf].
      rewrite Hf in IH. cbn. rewrite IH. reflexivity.
    - destruct (pending p) as [|n] eqn:Hp; [rewrite Hp; exact IH|].
      cbn. destruct (isCheckingOut (app p)); lia.
    - destruct (renderCurrentView (currentView (app p))); exact IH. }
  split; [exact Hinv|].
  intros Hf. cbn [step]. unfold checkout_enabled. rewrite Hf.
  rewrite andb_false_r. reflexivity.
Qed.

Lemma one_request_in_flight_witness :
  pending (page_run sample_visit (start [])) = 1%nat
  /\ step CheckoutClick (page_run sample_visit (start []))
     = page_run sample_visit (start []).
Proof.
  pose proof (one_request_in_flight [] _ sample_visit_reachable) as [Hp Hs].
  split; [exact Hp | apply Hs; reflexivity].
Defined.

Lemma well_formed_of_inv (c : Cart) :
  cart_inv c -> c <> [] -> well_formed_request (checkoutData c).
Proof.
  intros [Hu Hp] Hne. unfold well_formed_request. simpl. rewrite map_map. simpl.
  split; [|split].
  - destruct c; [contradiction | discriminate].
  - exact Hu.
  - unfold positive_quantities in Hp. rewrite Forall_forall in *.
    intros it Hit. apply in_map_iff in Hit. destruct Hit as [l [E Hl]].
    subst it. simpl. apply Hp. exact Hl.
Qed.

(** X15. Every session-creation request the page sends goes to
    [/api/checkout/create-session] with at least one item, no artwork twice
    and no quantity below 1. *)
Theorem requests_are_well_formed
  (entry : URLSearchParams) (p : Process) (path : string) (body : CheckoutData) :
  reachable entry p ->
  In (Post path body) (log p) ->
  path = "/api/checkout/create-session"%string /\ well_formed_request body.
Proof.
  intros Hr. induction Hr as [|p e Hr IH _]; intros Hin.
  - rewrite start_log in Hin. destruct Hin as [H|[H|[]]]; discriminate H.
  - destruct (page_step_effects e p _ Hin) as [H|[[H Hen]|[H _]]].
    + apply IH. exact H.
    + injection H as Hpath Hbody. subst. split; [reflexivity|].
      apply checkout_enabled_true in Hen. destruct Hen as [Hne _].
      apply well_formed_of_inv; [exact (reachable_inv entry p Hr) | exact Hne].
    + discriminate H.
Qed.

Lemma requests_are_well_formed_witness :
  well_formed_request (checkoutData [mkLine artA 1; mkLine artB 1]).
Proof.
  apply (requests_are_well_formed
           [] (page_run sample_visit (start []))
           "/api/checkout/create-session"
           (checkoutData [mkLine artA 1; mkLine artB 1])
           sample_visit_reachable).
  cbn. right. right. left. reflexivity.
Defined.

(** X16. The empty-cart alert of [handleCheckout] is never shown: the
    checkout button exists only while the cart has an entry, so the guard is
    never the branch taken. *)
Theorem empty_cart_alert_never_shown (entry : URLSearchParams) (p : Process) :
  reachable entry p -> ~ In (Alert "Your cart is empty!") (log p).
Proof.
  intros Hr. induction Hr as [|p e _ IH _]; intros Hin.
  - rewrite start_log in Hin. destruct Hin as [H|[H|[]]]; discriminate H.
  - destruct (page_step_effects e p _ Hin) as [H|[[H _]|[_ H]]].
    + exact (IH H).
    + discriminate H.
    + apply H. reflexivity.
Qed.

Lemma empty_cart_alert_never_shown_witness :
  ~ In (Alert "Your cart is empty!") (log (page_run sample_visit (start []))).
Proof.
  exact (empty_cart_alert_never_shown [] _ sample_visit_reachable).
Defined.

(** X17. The view is ["success"] only on a page whose entry URL carries a
    non-empty [session_id]: no button leads there. *)
Theorem success_view_needs_marker (entry : URLSearchParams) (p : Process) :
  reachable entry p ->
  currentView (app p) = "success"%string ->
  truthy (get "session_id" entry) = true.
Proof.
  intros Hr. induction Hr as [|p e Hr IH Hoff].
  - cbn. destruct (truthy (get "session_id" entry)); [reflexivity|].
    intros H. discriminate H.
  - rewrite page_step_view. rewrite (reachable_search entry p Hr).
    destruct e as [e| |]; try exact IH. destruct e; try exact IH.
    + simpl in Hoff. intros H. subst view.
      destruct Hoff as [H|[H|[H|[H|[]]]]]; discriminate H.
    + intros H. discriminate H.
    + destruct (String.eqb c (filterCategory (app p))); [exact IH|].
      destruct (truthy (get "session_id" entry)); [reflexivity | exact IH].
Qed.

Lemma success_view_needs_marker_witness :
  truthy (get "session_id" entry_with_session) = true.
Proof.
  exact (success_view_needs_marker
           entry_with_session (start entry_with_session)
           (reach_start entry_with_session) eq_refl).
Defined.

(** X18. Whenever the view is ["artwork-detail"], an artwork is selected: the
    detail page is never rendered empty. *)
Theorem detail_view_has_artwork (entry : URLSearchParams) (p : Process) :
  reachable entry p ->
  currentView (app p) = "artwork-detail"%string ->
  selectedArtwork (app p) <> None.
Proof.
  intros Hr. induction Hr as [|p e Hr IH Hoff].
  - cbn. destruct (truthy (get "session_id" entry)); intros H; discriminate H.
  - rewrite page_step_view, page_step_selected.
    destruct e as [e| |]; try exact IH. destruct e; try exact IH.
    + simpl in Hoff. intros H. subst view.
      destruct Hoff as [H|[H|[H|[H|[]]]]]; discriminate H.
    + intros _ H. discriminate H.
    + destruct (String.eqb c (filterCategory (app p))); [exact IH|].
      destruct (truthy (get "session_id" (search p))); [|exact IH].
      intros H. discriminate H.
Qed.

Lemma detail_visit_reachable : reachable [] (page_run detail_visit (start [])).
Proof.
  unfold page_run, detail_visit. cbn [fold_left].
  repeat (apply reach_step; [|cbn]).
  - apply reach_start.
  - exact I.
  - left. reflexivity.
Defined.

Lemma detail_view_has_artwork_witness :
  selectedArtwork (app (page_run detail_visit (start []))) <> None.
Proof.
  exact (detail_view_has_artwork [] _ detail_visit_reachable eq_refl).
Defined.

(** X19. Only the three cart events change the cart.  Navigation, filters,
    catalog answers and failures, the sidebar toggle, the checkout click and
    the settling of its request, successful or not, leave every entry as it
    is; and since the success page is never rendered, no step empties the
    cart wholesale. *)
Theorem cart_changes_only_by_cart_events (e : PageEvent) (p : Process) :
  match e with
  | Ui e' => is_cart_event e' = false
  | _ => True
  end ->
  cart (app (page_step e p)) = cart (app p).
Proof.
  intros H. rewrite page_step_cart.
  destruct e as [e| |]; try reflexivity.
  destruct e; try reflexivity; discriminate H.
Qed.

Lemma cart_changes_only_by_cart_events_witness :
  cart (app (page_step (Ui (CheckoutSettled session_created))
                       (page_run sample_visit (start []))))
  = [mkLine artA 1; mkLine artB 1].
Proof.
  exact (cart_changes_only_by_cart_events
           (Ui (CheckoutSettled session_created))
           (page_run sample_visit (start [])) eq_refl).
Defined.

(** X20. Choosing another filter re-runs the mount effect: the filter is
    stored, the two catalog requests are sent again, the first with the
    category in its query unless the filter is ["all"], and the return check
    runs again, so on a page entered with a non-empty [session_id] the view
    is set to ["success"] and the home page is rendered.  Choosing the filter
    that is already set does nothing. *)
Theorem filter_change_reruns_mount_effect (c : string) (p : Process) :
  c <> filterCategory (app p) ->
  filterCategory (app (step (SetFilter c) p)) = c
  /\ log (step (SetFilter c) p)
     = log p ++ [Get (if String.eqb c "all" then "/api/artworks"
                      else "/api/artworks?category=" ++ c);
                 Get "/api/featured-artworks"]
  /\ (truthy (get "session_id" (search p)) = true ->
        currentView (app (step (SetFilter c) p)) = "success"%string
        /\ renderCurrentView (currentView (app (step (SetFilter c) p))) = HomePage)
  /\ (truthy (get "session_id" (search p)) = false ->
        currentView (app (step (SetFilter c) p)) = currentView (app p))
  /\ step (SetFilter (filterCategory (app p))) p = p.
Proof.
  intros Hc. apply String.eqb_neq in Hc.
  split; [|split; [|split; [|split]]].
  - cbn [step]. rewrite Hc. cbn. destruct (truthy _); reflexivity.
  - cbn [step]. rewrite Hc. reflexivity.
  - intros Ht. cbn [step]. rewrite Hc. cbn. rewrite Ht. split; reflexivity.
  - intros Ht. cbn [step]. rewrite Hc. cbn. rewrite Ht. reflexivity.
  - cbn [step]. rewrite String.eqb_refl. reflexivity.
Qed.

Lemma filter_change_reruns_mount_effect_witness :
  renderCurrentView (currentView (app returned_in_gallery)) = GalleryPage
  /\ renderCurrentView
       (currentView (app (step (SetFilter "abstract") returned_in_gallery)))
     = HomePage.
Proof.
  split; [reflexivity|].
  apply (proj1 (proj2 (proj2 (filter_change_reruns_mount_effect
                                "abstract" returned_in_gallery
                                ltac:(discriminate))))).
  reflexivity.
Defined.

(* ------------------------------------------------------------------ *)
(** ** Which entry URLs start in the success view *)

Lemma get_some_iff (name : string) (params : URLSearchParams) (v : string) :
  get name params = Some v
  <-> exists before after,
        params = before ++ (name, v) :: after
        /\ forall w, ~ In (name, w) before.
Proof.
  induction params as [|[n x] rest IH]; simpl.
  - split; [discriminate|].
    intros [before [after [H _]]]. destruct before; discriminate H.
  - destruct (String.eqb_spec n name) as [E|E].
    + subst n. split.
      * intros H. injection H as H. subst x. exists [], rest.
        split; [reflexivity | intros w []].
      * intros [before [after [H Hb]]]. destruct before as [|[n' x'] before].
        -- injection H as H _. congruence.
        -- injection H as Hn Hx _. subst n' x'. exfalso. apply (Hb x). left.
           reflexivity.
    + rewrite IH. split.
      * intros [before [after [H Hb]]]. exists ((n, x) :: before), after.
        split; [simpl; congruence|].
        intros w [Hw|Hw]; [congruence | exact (Hb w Hw)].
      * intros [before [after [H Hb]]]. destruct before as [|[n' x'] before].
        -- injection H as Hn _. congruence.
        -- injection H as _ _ H. exists before, after. split; [exact H|].
           intros w Hw. apply (Hb w). right. exact Hw.
Qed.

(** X21. The page starts in the view ["success"] exactly when the first
    [session_id] pair of the entry URL's query string has a non-empty value;
    later [session_id] pairs are not looked at.  Otherwise it starts in
    ["home"]. *)
Theorem starts_in_success_iff (entry : URLSearchParams) :
  (currentView (app (start entry)) = "success"%string
   <-> exists before v after,
         entry = before ++ ("session_id"%string, v) :: after
         /\ (forall w, ~ In ("session_id"%string, w) before)
         /\ v <> ""%string)
  /\ (currentView (app (start entry)) = "success"%string
      \/ currentView (app (start entry)) = "home"%string).
Proof.
  assert (Hview : currentView (app (start entry))
                  = if truthy (get "session_id" entry)
                    then "success"%string else "home"%string).
  { cbn. destruct (truthy _); reflexivity. }
  rewrite Hview. split.
  - split.
    + destruct (get "session_id" entry) as [v|] eqn:Hg; simpl;
        [|intros H; discriminate H].
      destruct (String.eqb_spec v "") as [E|E]; simpl; [intros H; discriminate H|].
      intros _. apply get_some_iff in Hg. destruct Hg as [before [after [H Hb]]].
      exists before, v, after. auto.
    + intros [before [v [after [H [Hb Hv]]]]].
      assert (Hg : get "session_id" entry = Some v).
      { apply get_some_iff. exists before, after. auto. }
      rewrite Hg. simpl. destruct (String.eqb_spec v ""); [contradiction | reflexivity].
  - destruct (truthy _); auto.
Qed.

Lemma starts_in_success_iff_witness :
  currentView (app (start (("ref"%string, "mail"%string) :: entry_with_session)))
  = "success"%string.
Proof.
  apply (proj2 (proj1 (starts_in_success_iff
                         (("ref"%string, "mail"%string) :: entry_with_session)))).
  exists [("ref"%string, "mail"%string)], "cs_test_123"%string, [].
  split; [reflexivity|]. split.
  - intros w [H|[]]. discriminate H.
  - discriminate.
Defined.

(* ------------------------------------------------------------------ *)
(** ** Navigations answer requests *)

(** X22. The page leaves for the payment processor only in answer to a
    session-creation request it has sent: the navigations performed so far,
    together with the requests still pending, never outnumber the requests
    sent. *)
Theorem navigations_answer_requests (entry : URLSearchParams) (p : Process) :
  reachable entry p ->
  (List.length (filter is_navigate (log p)) + pending p
   <= List.length (filter is_post (log p)))%nat.
Proof.
  intros Hr. induction Hr as [|p e _ IH _]; [cbn; lia|].
  step_cases e; cbn; rewrite ?filter_app, ?length_app; cbn; try lia.
  unfold after_fetch. destruct (session_url o); cbn; lia.
Qed.

Lemma navigations_answer_requests_witness :
  (List.length (filter is_navigate (log (page_run sample_visit (start []))))
   + pending (page_run sample_visit (start []))
   <= List.length (filter is_post (log (page_run sample_visit (start [])))))%nat.
Proof.
  exact (navigations_answer_requests [] _ sample_visit_reachable).
Defined.
